(** * denonavr.ssdp: discovery of Denon AVR receivers with SSDP and SCPD

    A shallow embedding of [src/denonavr/ssdp.py] and the properties of its
    discovery pipeline: the M-SEARCH request, the broadcast loop over local
    addresses and search targets, the extraction of LOCATION urls, the
    evaluation of a device description and the loop of the entry point.

    Python values are modelled as follows.
    - [str] is [string]; [bytes] is [list byte].  The codec between the two
      ([str.encode], [bytes.decode]) and [urlparse(..).hostname] belong to
      the Python library and are parameters of the development.
    - A value that is a [str] or [None] (the [text] of an XML element, the
      [hostname] of a parsed url) is a [pyval].
    - A [dict] with string keys is a [gmap string _], a [set] of strings a
      [gset string].
    - Exceptions are the constructors of [exn]; a computation that may raise
      returns a [result].  The functions that use sockets run in a state
      and exception monad [M] whose state survives a raised exception, as
      the sockets and the list [res] do in Python.

    The network and the adapters of the host are the input of a run: a
    [world].  It is assumed of them that
    - creating a socket and setting its timeout do not fail;
    - on every socket finitely many datagrams arrive before [recvfrom]
      raises, with [socket.timeout] or with another error;
    - [requests.get] raises request exceptions only, and [ET.fromstring]
      raises [ParseError] only;
    - the characters of a [str] are code points below 256. *)

From Stdlib Require Import ZArith Strings.String Strings.Ascii Strings.Byte.
From Stdlib Require Import Numbers.DecimalString.
From stdpp Require Import gmap strings list fin_maps.

Local Open Scope string_scope.
Local Open Scope list_scope.

(** ** Python values and exceptions *)

Abbreviation bytes := (list byte).

Inductive pyval :=
| PyNone
| PyStr (s : string).

#[global] Instance pyval_eq_dec : EqDecision pyval.
Proof. solve_decision. Defined.

(** [x in l] for a list of strings: [None] equals no string. *)
Definition py_in (x : pyval) (l : list string) : bool :=
  match x with
  | PyNone => false
  | PyStr s => bool_decide (s ∈ l)
  end.

(** [x == s] where [s] is a string. *)
Definition py_eq_str (x : pyval) (s : string) : bool :=
  bool_decide (x = PyStr s).

Inductive exn :=
| AttributeError
| ValueError
| ParseError            (* xml.etree.ElementTree.ParseError *)
| ConnectTimeout        (* requests.exceptions.ConnectTimeout *)
| RequestError          (* any other requests.exceptions.RequestException *)
| socket_timeout        (* socket.timeout *)
| OSError               (* any other socket error *)
| UnicodeDecodeError.

#[global] Instance exn_eq_dec : EqDecision exn.
Proof. solve_decision. Defined.

(** [ConnectTimeout] is a subclass of [RequestException]. *)
Definition is_RequestException (e : exn) : bool :=
  match e with
  | ConnectTimeout | RequestError => true
  | _ => false
  end.

Inductive result (A : Type) :=
| Ok (a : A)
| Raise (e : exn).
Arguments Ok {A} a.
Arguments Raise {A} e.

Definition rbind {A B} (r : result A) (k : A -> result B) : result B :=
  match r with
  | Ok a => k a
  | Raise e => Raise e
  end.

(** [try: body  except (e1, e2, ..): handler] *)
Definition try_except {A} (body : result A) (caught : exn -> bool)
    (handler : exn -> result A) : result A :=
  match body with
  | Ok a => Ok a
  | Raise e => if caught e then handler e else Raise e
  end.

Declare Scope result_scope.
Delimit Scope result_scope with result.
Notation "x <- c1 ;; c2" := (rbind c1 (fun x => c2))
  (at level 100, c1 at next level, right associativity) : result_scope.

(** ** The part of [re] that the module uses

    The two patterns of the module are sequences of: one character, a
    greedy star or a lazy plus over one character, a look-behind and a
    look-ahead over a fixed sequence of characters.  [match_here] is the
    backtracking matcher of [re] on such sequences: it returns the text
    matched at the current position ([group(0)]).  [before] holds the
    characters to the left of the position, nearest first. *)

Module Re.

Inductive atom :=
| Chr (c : ascii)     (* a literal character *)
| Dot                 (* [.] : any character but the newline *)
| Space.              (* [\s] : a whitespace character *)

(** [str.isspace] on the code points below 256. *)
Definition is_space (c : ascii) : bool :=
  let n := N_of_ascii c in
  ((9 <=? n) && (n <=? 13) || (28 <=? n) && (n <=? 32)
   || (n =? 133) || (n =? 160))%N.

Definition atom_matches (a : atom) (c : ascii) : bool :=
  match a with
  | Chr c' => Ascii.eqb c' c
  | Dot => negb (Ascii.eqb c "010")
  | Space => is_space c
  end.

Inductive node :=
| One (a : atom)                (* a *)
| Star (a : atom)               (* a*   *)
| LazyPlus (a : atom)           (* a+?  *)
| LookBehind (l : list atom)    (* (?<=l) *)
| LookAhead (l : list atom).    (* (?=l)  *)

Definition pattern := list node.

Definition literal (s : string) : list atom :=
  map Chr (list_ascii_of_string s).

Fixpoint atoms_prefix (l : list atom) (s : list ascii) : bool :=
  match l, s with
  | [], _ => true
  | a :: l', c :: s' => atom_matches a c && atoms_prefix l' s'
  | _ :: _, [] => false
  end.

Fixpoint match_here (p : pattern) (before after : list ascii)
    : option (list ascii) :=
  match p with
  | [] => Some []
  | One a :: p' =>
      match after with
      | c :: after' =>
          if atom_matches a c
          then cons c <$> match_here p' (c :: before) after'
          else None
      | [] => None
      end
  | Star a :: p' =>
      (fix star (before after : list ascii) : option (list ascii) :=
         match after with
         | c :: after' =>
             if atom_matches a c then
               match star (c :: before) after' with
               | Some m => Some (c :: m)
               | None => match_here p' before after
               end
             else match_here p' before after
         | [] => match_here p' before after
         end) before after
  | LazyPlus a :: p' =>
      match after with
      | c :: after' =>
          if atom_matches a c then
            cons c <$>
            (fix lazy (before after : list ascii) : option (list ascii) :=
               match match_here p' before after with
               | Some m => Some m
               | None =>
                   match after with
                   | c :: after' =>
                       if atom_matches a c
                       then cons c <$> lazy (c :: before) after'
                       else None
                   | [] => None
                   end
               end) (c :: before) after'
          else None
      | [] => None
      end
  | LookBehind l :: p' =>
      if atoms_prefix (rev l) before then match_here p' before after else None
  | LookAhead l :: p' =>
      if atoms_prefix l after then match_here p' before after else None
  end.

(** [re.search]: the match at the leftmost position that has one. *)
Fixpoint search_from (p : pattern) (before after : list ascii)
    : option (list ascii) :=
  match match_here p before after with
  | Some m => Some m
  | None =>
      match after with
      | [] => None
      | c :: after' => search_from p (c :: before) after'
      end
  end.

Definition search (p : pattern) (s : string) : option string :=
  string_of_list_ascii <$> search_from p [] (list_ascii_of_string s).

End Re.

(** ** Constants of the module *)

Definition SSDP_ADDR : string := "239.255.255.250".
Definition SSDP_PORT : Z := 1900.
Definition SSDP_MX : Z := 2.
Definition SSDP_TARGET : string * Z := (SSDP_ADDR, SSDP_PORT).
Definition SSDP_ST_1 : string := "ssdp:all".
Definition SSDP_ST_2 : string := "upnp:rootdevice".
Definition SSDP_ST_3 : string := "urn:schemas-upnp-org:device:MediaRenderer:1".

Definition SSDP_ST_LIST : list string := [SSDP_ST_1; SSDP_ST_2; SSDP_ST_3].

Definition SCPD_XMLNS : string := "{urn:schemas-upnp-org:device-1-0}".
Definition SCPD_DEVICE : string := SCPD_XMLNS +:+ "device".
Definition SCPD_DEVICETYPE : string := SCPD_XMLNS +:+ "deviceType".
Definition SCPD_MANUFACTURER : string := SCPD_XMLNS +:+ "manufacturer".
Definition SCPD_MODELNAME : string := SCPD_XMLNS +:+ "modelName".
Definition SCPD_SERIALNUMBER : string := SCPD_XMLNS +:+ "serialNumber".
Definition SCPD_FRIENDLYNAME : string := SCPD_XMLNS +:+ "friendlyName".
Definition SCPD_PRESENTATIONURL : string := SCPD_XMLNS +:+ "presentationURL".

Definition DEVICETYPE_DENON : string :=
  "urn:schemas-upnp-org:device:MediaRenderer:1".

Definition SUPPORTED_MANUFACTURERS : list string :=
  ["Denon"; "DENON"; "Marantz"].

(** The pattern ["169.254.*.*"] of [send_ssdp_broadcast]. *)
Definition LINK_LOCAL_RE : Re.pattern :=
  [Re.One (Re.Chr "1"); Re.One (Re.Chr "6"); Re.One (Re.Chr "9");
   Re.One Re.Dot;
   Re.One (Re.Chr "2"); Re.One (Re.Chr "5"); Re.One (Re.Chr "4");
   Re.Star Re.Dot; Re.Star Re.Dot].

(** The pattern ['(?<=LOCATION:\s).+?(?=\\r)'] of [send_ssdp_broadcast]. *)
Definition LOCATION_RE : Re.pattern :=
  [Re.LookBehind (Re.literal "LOCATION:" ++ [Re.Space]);
   Re.LazyPlus Re.Dot;
   Re.LookAhead [Re.Chr "013"]].

(** ** Strings *)

Definition CR : string := String "013" EmptyString.
Definition LF : string := String "010" EmptyString.
Definition CRLF : string := CR +:+ LF.
Definition DQUOTE : string := String "034" EmptyString.

(** [sep.join(l)] *)
Fixpoint join (sep : string) (l : list string) : string :=
  match l with
  | [] => EmptyString
  | [x] => x
  | x :: rest => x +:+ sep +:+ join sep rest
  end.

(** ['{:d}'.format(n)] and ['{}'.format(n)] for an integer [n]. *)
Definition format_d (n : Z) : string :=
  NilEmpty.string_of_int (Z.to_int n).

(** ** The Python library

    What the module calls and does not define: the UTF-8 codec and
    [urllib.parse.urlparse].  [utf8_decode] is [None] when [bytes.decode]
    raises [UnicodeDecodeError]; [urlparse_hostname x] is
    [urlparse(x).hostname], a [str] or [None], and is [None] when [urlparse]
    raises [ValueError]. *)

Class PyLib := {
  utf8_encode : string -> bytes;
  utf8_decode : bytes -> option string;
  urlparse_hostname : pyval -> option pyval
}.

(** ** The environment of one discovery run *)

(** An address of an adapter as [ifaddr] reports it: [ip.ip] is a [str] for
    IPv4 and a tuple (address, flowinfo, scope id) for IPv6. *)
Inductive adapter_ip :=
| IPv4 (ip : string)
| IPv6 (ip : string) (flowinfo scope_id : Z).

Record adapter := { ips : list adapter_ip }.

(** A datagram as [recvfrom] returns it: the payload and the sender. *)
Abbreviation datagram := (bytes * (string * Z))%type.

(** What the network does with one socket after the request went out: the
    datagrams that arrive before the receive call raises, and the exception
    it raises then ([socket_timeout] after [SSDP_MX] silent seconds, or an
    error). *)
Record exchange := {
  sendto_error : option exn;
  arrivals : list datagram;
  recv_end : exn
}.

(** An XML element of [xml.etree.ElementTree]: tag, text and children. *)
#[warnings="-register-all"]
Inductive Element :=
| Elem (tag : string) (text : pyval) (children : list Element).

Definition tag (e : Element) : string :=
  match e with Elem t _ _ => t end.
Definition text (e : Element) : pyval :=
  match e with Elem _ t _ => t end.
Definition children (e : Element) : list Element :=
  match e with Elem _ _ c => c end.

(** What [ET.fromstring] makes of the text of a response. *)
Inductive xml_parse :=
| XmlError
| XmlRoot (root : Element).

(** What [requests.get(url, timeout=2)] does. *)
Inductive http_outcome :=
| GetConnectTimeout
| GetRequestError
| GetResponse (status_code : Z) (body : xml_parse).

(** The sockets of a run are numbered in the order of their creation.
    - [get_adapters]: what [ifaddr.get_adapters()] returns;
    - [bind_error sock ip]: the error that binding the socket [sock] to
      [ip] raises, if any;
    - [udp sock ip data]: what happens on the socket [sock], bound to [ip],
      once [data] is handed to [sendto];
    - [requests_get url]: what the GET request for [url] does. *)
Record world := {
  get_adapters : list adapter;
  bind_error : nat -> string -> option exn;
  udp : nat -> string -> bytes -> exchange;
  requests_get : string -> http_outcome
}.

(** ** State and exceptions *)

(** [sockets] counts the sockets created so far, [open_sockets] holds
    those that are not closed; [sent] lists the datagrams handed to
    [sendto] with the local address of their socket, in the order of the
    calls; [res] is the local list of [send_ssdp_broadcast]. *)
Record state := {
  sockets : nat;
  open_sockets : gset nat;
  sent : list (string * bytes);
  res : list datagram
}.

Definition M (A : Type) : Type := state -> result A * state.

Definition ret {A} (a : A) : M A := fun s => (Ok a, s).

Definition raise {A} (e : exn) : M A := fun s => (Raise e, s).

Definition bind {A B} (m : M A) (k : A -> M B) : M B :=
  fun s =>
    match m s with
    | (Ok a, s') => k a s'
    | (Raise e, s') => (Raise e, s')
    end.

Definition lift {A} (r : result A) : M A := fun s => (r, s).

(** [try: body  except e: handler] *)
Definition try_catch {A} (body : M A) (caught : exn -> bool)
    (handler : exn -> M A) : M A :=
  fun s =>
    match body s with
    | (Ok a, s') => (Ok a, s')
    | (Raise e, s') => if caught e then handler e s' else (Raise e, s')
    end.

Declare Scope M_scope.
Delimit Scope M_scope with M.
Notation "x <- c1 ;; c2" := (bind c1 (fun x => c2))
  (at level 100, c1 at next level, right associativity) : M_scope.
Notation "c1 ;; c2" := (bind c1 (fun _ => c2))
  (at level 100, right associativity) : M_scope.

(** [socket.socket(AF_INET, SOCK_DGRAM, IPPROTO_UDP)] *)
Definition socket_socket : M nat :=
  fun s =>
    (Ok (sockets s),
     {| sockets := S (sockets s);
        open_sockets := {[sockets s]} ∪ open_sockets s;
        sent := sent s;
        res := res s |}).

(** [sock.bind((ip, 0))] *)
Definition sock_bind (w : world) (sock : nat) (ip : string) : M unit :=
  match bind_error w sock ip with
  | Some e => raise e
  | None => ret tt
  end.

(** [sock.sendto(data, (SSDP_ADDR, SSDP_PORT))] *)
Definition sock_sendto (w : world) (sock : nat) (ip : string) (data : bytes)
    : M unit :=
  fun s =>
    let s' := {| sockets := sockets s;
                 open_sockets := open_sockets s;
                 sent := sent s ++ [(ip, data)];
                 res := res s |} in
    match sendto_error (udp w sock ip data) with
    | Some e => (Raise e, s')
    | None => (Ok tt, s')
    end.

(** [sock.close()] *)
Definition sock_close (sock : nat) : M unit :=
  fun s =>
    (Ok tt,
     {| sockets := sockets s;
        open_sockets := open_sockets s ∖ {[sock]};
        sent := sent s;
        res := res s |}).

Definition get_res : M (list datagram) := fun s => (Ok (res s), s).

Definition set_res (r : list datagram) : M unit :=
  fun s =>
    (Ok tt,
     {| sockets := sockets s;
        open_sockets := open_sockets s;
        sent := sent s;
        res := r |}).

(** [res.append(d)] *)
Definition res_append (d : datagram) : M unit :=
  fun s => set_res (res s ++ [d]) s.

(** The truth value of a list. *)
Definition nonempty {A} (l : list A) : bool :=
  match l with
  | [] => false
  | _ :: _ => true
  end.

(** ** [ssdp_request] *)

Definition ssdp_request `{PyLib} (ssdp_st : string) (ssdp_mx : Z) : bytes :=
  utf8_encode
    (join CRLF
       ["M-SEARCH * HTTP/1.1";
        "ST: " +:+ ssdp_st;
        "MX: " +:+ format_d ssdp_mx;
        "MAN: " +:+ DQUOTE +:+ "ssdp:discover" +:+ DQUOTE;
        "HOST: " +:+ SSDP_TARGET.1 +:+ ":" +:+ format_d SSDP_TARGET.2;
        EmptyString; EmptyString]).

(** ** [get_local_ips] *)

Definition get_local_ips (adapters : list adapter) : list string :=
  flat_map
    (fun adapter =>
       flat_map
         (fun ip => match ip with IPv4 s => [s] | IPv6 _ _ _ => [] end)
         (ips adapter))
    adapters.

(** ** [send_ssdp_broadcast] *)

(** The buffer size of [sock.recvfrom(10240)]. *)
Definition RECV_BUFSIZE : nat := Z.to_nat 10240.

(** [while True: res.append(sock.recvfrom(10240))]: the loop ends when
    [recvfrom] raises. *)
Fixpoint recv_loop (arriving : list datagram) (ending : exn) : M unit :=
  match arriving with
  | [] => raise ending
  | (data, addr) :: rest =>
      (res_append (take RECV_BUFSIZE data, addr) ;; recv_loop rest ending)%M
  end.

(** One pass of the loop over the search targets, up to the test of [res]:
    the socket is created, bound and used, and closed when the receive
    loop ends with [socket.timeout], which [sock.settimeout(SSDP_MX)]
    makes [recvfrom] raise after two silent seconds.  The pass returns the
    socket. *)
Definition broadcast `{PyLib} (w : world) (ip ssdp_st : string) : M nat :=
  (sock <- socket_socket ;;
   sock_bind w sock ip ;;
   let data := ssdp_request ssdp_st SSDP_MX in
   sock_sendto w sock ip data ;;
   let x := udp w sock ip data in
   try_catch (recv_loop (arrivals x) (recv_end x))
     (fun e => bool_decide (e = socket_timeout))
     (fun _ => sock_close sock) ;;
   ret sock)%M.

(** [for i, ssdp_st in enumerate(SSDP_ST_LIST)] *)
Fixpoint st_loop `{PyLib} (w : world) (ip : string) (sts : list string)
    : M unit :=
  match sts with
  | [] => ret tt
  | ssdp_st :: sts' =>
      (sock <- broadcast w ip ssdp_st ;;
       r <- get_res ;;
       if nonempty r then sock_close sock (* break *)
       else st_loop w ip sts')%M
  end.

(** The test [re.search("169.254.*.*", ip)] of the loop over the addresses. *)
Definition ignored (ip : string) : bool :=
  bool_decide (is_Some (Re.search LINK_LOCAL_RE ip)).

(** [for ip in ips] *)
Fixpoint ip_loop `{PyLib} (w : world) (ips : list string) : M unit :=
  match ips with
  | [] => ret tt
  | ip :: ips' =>
      if ignored ip then ip_loop w ips' (* continue *)
      else
        (st_loop w ip SSDP_ST_LIST ;;
         r <- get_res ;;
         if nonempty r then ret tt (* break *)
         else ip_loop w ips')%M
  end.

(** The url of one response, [None] when the pattern does not match. *)
Definition location (entry_text : string) : option string :=
  Re.search LOCATION_RE entry_text.

(** [for entry in res], adding to the set [urls]. *)
Fixpoint urls_loop `{PyLib} (entries : list datagram) (urls : gset string)
    : result (gset string) :=
  match entries with
  | [] => Ok urls
  | entry :: rest =>
      match utf8_decode entry.1 with
      | None => Raise UnicodeDecodeError
      | Some entry_text =>
          match location entry_text with
          | Some url => urls_loop rest (urls ∪ {[url]})
          | None => urls_loop rest urls
          end
      end
  end.

Definition send_ssdp_broadcast `{PyLib} (w : world) : M (gset string) :=
  (let ips := get_local_ips (get_adapters w) in
   set_res [] ;;
   ip_loop w ips ;;
   r <- get_res ;;
   lift (urls_loop r ∅))%M.

(** ** [evaluate_scpd_xml] *)

(** What the function returns: [False] or the dictionary [device]. *)
Inductive pyobj :=
| PyFalse
| PyDict (d : gmap string pyval).

(** The truth value of a returned object. *)
Definition truthy (o : pyobj) : bool :=
  match o with
  | PyFalse => false
  | PyDict d => negb (bool_decide (d = ∅))
  end.

Definition ET_fromstring (body : xml_parse) : result Element :=
  match body with
  | XmlError => Raise ParseError
  | XmlRoot root => Ok root
  end.

(** [e.find(path)] for a path that is one tag: the first child with it. *)
Definition Element_find (path : string) (e : Element) : option Element :=
  List.find (fun c => bool_decide (tag c = path)) (children e).

(** [o.find(path)] and [o.text] where [o] is an element or [None]. *)
Definition find_of (o : option Element) (path : string)
    : result (option Element) :=
  match o with
  | None => Raise AttributeError
  | Some e => Ok (Element_find path e)
  end.

Definition text_of (o : option Element) : result pyval :=
  match o with
  | None => Raise AttributeError
  | Some e => Ok (text e)
  end.

(** [root.find(SCPD_DEVICE).find(path).text] *)
Definition device_text (root : Element) (path : string) : result pyval :=
  (o <- find_of (Element_find SCPD_DEVICE root) path ;; text_of o)%result.

(** [urlparse(x).hostname] *)
Definition hostname `{PyLib} (x : pyval) : result pyval :=
  match urlparse_hostname x with
  | None => Raise ValueError
  | Some h => Ok h
  end.

(** The body of the [try] statement. *)
Definition evaluate_body `{PyLib} (body : xml_parse) : result pyobj :=
  (root <- ET_fromstring body ;;
   manufacturer <- device_text root SCPD_MANUFACTURER ;;
   let device : gmap string pyval := <["manufacturer" := manufacturer]> ∅ in
   matches <-
     (if py_in manufacturer SUPPORTED_MANUFACTURERS
      then (device_type <- device_text root SCPD_DEVICETYPE ;;
            Ok (py_eq_str device_type DEVICETYPE_DENON))
      else Ok false) ;;
   if matches : bool then
     url <- device_text root SCPD_PRESENTATIONURL ;;
     host <- hostname url ;;
     let device := <["host" := host]> device in
     presentationURL <- device_text root SCPD_PRESENTATIONURL ;;
     let device := <["presentationURL" := presentationURL]> device in
     modelName <- device_text root SCPD_MODELNAME ;;
     let device := <["modelName" := modelName]> device in
     serialNumber <- device_text root SCPD_SERIALNUMBER ;;
     let device := <["serialNumber" := serialNumber]> device in
     friendlyName <- device_text root SCPD_FRIENDLYNAME ;;
     let device := <["friendlyName" := friendlyName]> device in
     Ok (PyDict device)
   else Ok PyFalse)%result.

Definition evaluate_scpd_xml `{PyLib} (w : world) (url : string)
    : result pyobj :=
  match requests_get w url with
  | GetConnectTimeout => Raise ConnectTimeout
  | GetRequestError => Raise RequestError
  | GetResponse status_code body =>
      if (status_code =? 200)%Z then
        try_except (evaluate_body body)
          (fun e => bool_decide (e ∈ [AttributeError; ValueError; ParseError]))
          (fun _ => Ok PyFalse)
      else Ok PyFalse
  end.

(** ** [identify_denonavr_receivers] *)

(** [for url in urls], appending to the list [receivers]. *)
Fixpoint receivers_loop `{PyLib} (w : world) (urls : list string)
    (receivers : list pyobj) : result (list pyobj) :=
  match urls with
  | [] => Ok receivers
  | url :: urls' =>
      match evaluate_scpd_xml w url with
      | Raise e =>
          if is_RequestException e
          then receivers_loop w urls' receivers (* continue *)
          else Raise e
      | Ok receiver =>
          if truthy receiver
          then receivers_loop w urls' (receivers ++ [receiver])
          else receivers_loop w urls' receivers
      end
  end.

(** The set [urls] is iterated in the order of [elements]. *)
Definition identify_denonavr_receivers `{PyLib} (w : world)
    : M (list pyobj) :=
  (urls <- send_ssdp_broadcast w ;;
   lift (receivers_loop w (elements urls) []))%M.

(** ** A library instance and sample environments

    [sample_lib] agrees with the Python library on 7-bit text and on urls
    of the shape [scheme://host:port/path]; it instantiates the parameters
    where a property is evaluated on a concrete run. *)

Definition ascii_encode (s : string) : bytes := list_byte_of_string s.

Definition ascii_decode (b : bytes) : option string :=
  if forallb (fun x => (Byte.to_N x <? 128)%N) b
  then Some (string_of_list_byte b)
  else None.

(** The characters of [l] before the first one that satisfies [p], and the
    rest from that character on. *)
Fixpoint break_at (p : ascii -> bool) (l : list ascii)
    : list ascii * list ascii :=
  match l with
  | [] => ([], [])
  | c :: l' =>
      if p c then ([], l)
      else let (a, b) := break_at p l' in (c :: a, b)
  end.

Definition is_letter (c : ascii) : bool :=
  let n := N_of_ascii c in
  ((65 <=? n) && (n <=? 90) || (97 <=? n) && (n <=? 122))%N.

Definition is_scheme_char (c : ascii) : bool :=
  let n := N_of_ascii c in
  (is_letter c || (48 <=? n) && (n <=? 57)
   || (n =? 43) || (n =? 45) || (n =? 46))%N.

Definition lower (c : ascii) : ascii :=
  let n := N_of_ascii c in
  if ((65 <=? n) && (n <=? 90))%N then ascii_of_N (n + 32) else c.

Definition is_char (c : ascii) : ascii -> bool := Ascii.eqb c.

(** The url without its scheme. *)
Definition strip_scheme (url : list ascii) : list ascii :=
  match break_at (is_char ":") url with
  | (c :: scheme, _ :: rest) =>
      if is_letter c && forallb is_scheme_char scheme then rest else url
  | _ => url
  end.

(** The text after the last ["@"]. *)
Definition after_last_at (l : list ascii) : list ascii :=
  rev (break_at (is_char "@") (rev l)).1.

Definition contains (c : ascii) (l : list ascii) : bool :=
  existsb (is_char c) l.

(** The hostname of a url: the network location is what follows ["//"] up
    to the next ["/"], ["?"] or ["#"]; the host is what follows the user
    information, inside brackets or up to the port, in lower case. *)
Definition sample_hostname (x : pyval) : option pyval :=
  match x with
  | PyNone => Some PyNone
  | PyStr url =>
      match strip_scheme (list_ascii_of_string url) with
      | "/"%char :: "/"%char :: rest =>
          let netloc :=
            (break_at (fun c => is_char "/" c || is_char "?" c || is_char "#" c)
               rest).1 in
          if xorb (contains "[" netloc) (contains "]" netloc) then None
          else
            let hostinfo := after_last_at netloc in
            let host :=
              match break_at (is_char "[") hostinfo with
              | (_, _ :: bracketed) => (break_at (is_char "]") bracketed).1
              | _ => (break_at (is_char ":") hostinfo).1
              end in
            match host with
            | [] => Some PyNone
            | _ => Some (PyStr (string_of_list_ascii (map lower host)))
            end
      | _ => Some PyNone
      end
  end.

Definition sample_lib : PyLib :=
  {| utf8_encode := ascii_encode;
     utf8_decode := ascii_decode;
     urlparse_hostname := sample_hostname |}.

(** A state before any socket was created. *)
Definition initial : state :=
  {| sockets := 0; open_sockets := ∅; sent := []; res := [] |}.

(** The urls of the three devices of [three_adapters] below. *)
Definition three_urls : gset string :=
  {[ "http://192.168.1.50:60006/desc.xml";
     "http://192.168.1.51:8080/description.xml";
     "http://192.168.1.52:49152/rootDesc.xml" ]}.

(** Descriptions. *)
Definition element (name : string) (t : pyval) : Element :=
  Elem (SCPD_XMLNS +:+ name) t [].

Definition description (fields : list Element) : Element :=
  Elem (SCPD_XMLNS +:+ "root") PyNone
    [Elem (SCPD_XMLNS +:+ "specVersion") PyNone
       [element "major" (PyStr "1"); element "minor" (PyStr "0")];
     Elem SCPD_DEVICE PyNone fields].

Definition living_room_avr : Element :=
  description
    [element "deviceType" (PyStr "urn:schemas-upnp-org:device:MediaRenderer:1");
     element "friendlyName" (PyStr "Living Room AVR");
     element "manufacturer" (PyStr "Denon");
     element "modelName" (PyStr "AVR-X2300W");
     element "serialNumber" (PyStr "0005CD123456");
     element "presentationURL" (PyStr "http://192.168.1.50:80/index.html")].

(** A renderer of a supported manufacturer that gives no serial number. *)
Definition no_serial_avr : Element :=
  description
    [element "deviceType" (PyStr "urn:schemas-upnp-org:device:MediaRenderer:1");
     element "friendlyName" (PyStr "Kitchen");
     element "manufacturer" (PyStr "Marantz");
     element "modelName" (PyStr "NR1607");
     element "serialNumber" PyNone;
     element "presentationURL" (PyStr "http://192.168.1.51/")].

(** A renderer of a supported manufacturer without a presentation url. *)
Definition no_presentation_avr : Element :=
  description
    [element "deviceType" (PyStr "urn:schemas-upnp-org:device:MediaRenderer:1");
     element "friendlyName" (PyStr "Living Room AVR");
     element "manufacturer" (PyStr "Denon");
     element "modelName" (PyStr "AVR-X2300W");
     element "serialNumber" (PyStr "0005CD123456")].

(** A renderer whose manufacturer is written in lower case. *)
Definition lower_case_avr : Element :=
  description
    [element "deviceType" (PyStr "urn:schemas-upnp-org:device:MediaRenderer:1");
     element "friendlyName" (PyStr "Living Room AVR");
     element "manufacturer" (PyStr "denon");
     element "modelName" (PyStr "AVR-X2300W");
     element "serialNumber" (PyStr "0005CD123456");
     element "presentationURL" (PyStr "http://192.168.1.50:80/index.html")].

(** A response to a search. *)
Definition ssdp_response (url : string) : string :=
  "HTTP/1.1 200 OK" +:+ CRLF +:+
  "CACHE-CONTROL: max-age=180" +:+ CRLF +:+
  "EXT:" +:+ CRLF +:+
  "LOCATION: " +:+ url +:+ CRLF +:+
  "ST: upnp:rootdevice" +:+ CRLF +:+ CRLF.

Definition silence : exchange :=
  {| sendto_error := None; arrivals := []; recv_end := socket_timeout |}.

Definition desc_url : string := "http://192.168.1.50:60006/desc.xml".

(** One adapter with the address 192.168.1.10 and an IPv6 address.  The
    second search (the root devices) is answered by one device; the text
    of its description parses as [body]. *)
Definition home (body : xml_parse) : world :=
  {| get_adapters :=
       [ {| ips := [IPv4 "192.168.1.10"; IPv6 "fe80::1" 0 2] |} ];
     bind_error := fun _ _ => None;
     udp := fun sock _ _ =>
       if (sock =? 1)%nat then
         {| sendto_error := None;
            arrivals :=
              [(ascii_encode (ssdp_response desc_url),
                ("192.168.1.50", 1900%Z))];
            recv_end := socket_timeout |}
       else silence;
     requests_get := fun url =>
       if bool_decide (url = desc_url)
       then GetResponse 200 body
       else GetRequestError |}.

(** The dictionaries that the descriptions above give. *)
Definition living_room_record : gmap string pyval :=
  <["friendlyName" := PyStr "Living Room AVR"]>
  (<["serialNumber" := PyStr "0005CD123456"]>
  (<["modelName" := PyStr "AVR-X2300W"]>
  (<["presentationURL" := PyStr "http://192.168.1.50:80/index.html"]>
  (<["host" := PyStr "192.168.1.50"]>
  (<["manufacturer" := PyStr "Denon"]> ∅))))).

Definition kitchen_record : gmap string pyval :=
  <["friendlyName" := PyStr "Kitchen"]>
  (<["serialNumber" := PyNone]>
  (<["modelName" := PyStr "NR1607"]>
  (<["presentationURL" := PyStr "http://192.168.1.51/"]>
  (<["host" := PyStr "192.168.1.51"]>
  (<["manufacturer" := PyStr "Marantz"]> ∅))))).

(** Three adapters: nothing answers on the first, three devices answer the
    first search on the second.  The first device is a receiver, the
    second does not accept the connection, the third has no description. *)
Definition three_adapters : world :=
  {| get_adapters :=
       [ {| ips := [IPv4 "10.0.0.2"] |};
         {| ips := [IPv4 "192.168.1.10"] |};
         {| ips := [IPv4 "172.16.0.7"] |} ];
     bind_error := fun _ _ => None;
     udp := fun sock _ _ =>
       if (sock =? 3)%nat then
         {| sendto_error := None;
            arrivals :=
              [(ascii_encode (ssdp_response "http://192.168.1.50:60006/desc.xml"),
                ("192.168.1.50", 1900%Z));
               (ascii_encode (ssdp_response "http://192.168.1.51:8080/description.xml"),
                ("192.168.1.51", 1900%Z));
               (ascii_encode (ssdp_response "http://192.168.1.52:49152/rootDesc.xml"),
                ("192.168.1.52", 1900%Z))];
            recv_end := socket_timeout |}
       else silence;
     requests_get := fun url =>
       if bool_decide (url = "http://192.168.1.50:60006/desc.xml")
       then GetResponse 200 (XmlRoot living_room_avr)
       else if bool_decide (url = "http://192.168.1.51:8080/description.xml")
       then GetConnectTimeout
       else GetResponse 404 XmlError |}.

(** One adapter whose network is down: the first receive call fails with
    an error that is not a timeout. *)
Definition network_down : world :=
  {| get_adapters := [ {| ips := [IPv4 "192.168.1.10"] |} ];
     bind_error := fun _ _ => None;
     udp := fun _ _ _ =>
       {| sendto_error := None; arrivals := []; recv_end := OSError |};
     requests_get := fun _ => GetRequestError |}.

(** One adapter whose address is 1.169.254.2, where every search would be
    answered. *)
Definition public_address : world :=
  {| get_adapters := [ {| ips := [IPv4 "1.169.254.2"] |} ];
     bind_error := fun _ _ => None;
     udp := fun _ _ _ =>
       {| sendto_error := None;
          arrivals :=
            [(ascii_encode (ssdp_response "http://1.169.254.9:60006/desc.xml"),
              ("1.169.254.9", 1900%Z))];
          recv_end := socket_timeout |};
     requests_get := fun _ => GetResponse 200 (XmlRoot living_room_avr) |}.

(** ** Vocabulary of the properties *)

(** The manufacturer text of the description is a supported name. *)
Definition manufacturer_supported (root : Element) : bool :=
  match device_text root SCPD_MANUFACTURER with
  | Ok manufacturer => py_in manufacturer SUPPORTED_MANUFACTURERS
  | Raise _ => false
  end.

(** The deviceType text of the description is the expected one. *)
Definition device_type_expected (root : Element) : bool :=
  match device_text root SCPD_DEVICETYPE with
  | Ok device_type => py_eq_str device_type DEVICETYPE_DENON
  | Raise _ => false
  end.

(** The device has an element with this tag. *)
Definition has_element (root : Element) (path : string) : bool :=
  match device_text root path with
  | Ok _ => true
  | Raise _ => false
  end.

(** The device has the four elements that the record is read from, and the
    presentation url can be parsed. *)
Definition attributes_readable `{PyLib} (root : Element) : bool :=
  match device_text root SCPD_PRESENTATIONURL with
  | Ok url => bool_decide (is_Some (urlparse_hostname url))
  | Raise _ => false
  end
  && has_element root SCPD_MODELNAME
  && has_element root SCPD_SERIALNUMBER
  && has_element root SCPD_FRIENDLYNAME.

(** The five fields of a DeviceRecord, and the keys of [device]. *)
Definition DeviceRecord_fields : gset string :=
  {[ "host"; "modelName"; "friendlyName"; "presentationURL"; "serialNumber" ]}.

Definition device_keys : gset string :=
  {[ "manufacturer" ]} ∪ DeviceRecord_fields.

(** A mapping with exactly the five fields, each with a string. *)
Definition DeviceRecord_shaped (o : pyobj) : Prop :=
  ∃ d, o = PyDict d ∧ dom d = DeviceRecord_fields
       ∧ ∀ k v, d !! k = Some v → ∃ s, v = PyStr s.

(** The dictionary [d] holds under [key] the text of the element [path]. *)
Definition field_of (root : Element) (path : string)
    (d : gmap string pyval) (key : string) : Prop :=
  ∃ v, device_text root path = Ok v ∧ d !! key = Some v.

(** The record of a url, when its resolution succeeds. *)
Definition validated `{PyLib} (w : world) (url : string) : option pyobj :=
  match evaluate_scpd_xml w url with
  | Ok (PyDict d) => Some (PyDict d)
  | _ => None
  end.

(** The datagram as [recvfrom(10240)] returns it. *)
Definition received (d : datagram) : datagram :=
  (take RECV_BUFSIZE d.1, d.2).




(** The look-behind of [LOCATION_RE], as it is matched to the left of a
    position. *)
Definition LOCATION_BEHIND : list Re.atom :=
  rev (Re.literal "LOCATION:" ++ [Re.Space]).





(** Nothing answers and the receive call times out. *)
Definition quiet (x : exchange) : Prop :=
  sendto_error x = None ∧ arrivals x = [] ∧ recv_end x = socket_timeout.

(** Every datagram sent since [s0] went out unanswered.  The [k]-th socket
    created since [s0] sent the [k]-th datagram. *)
Definition unanswered (w : world) (s0 s : state) : Prop :=
  ∃ new,
    sent s = sent s0 ++ new
    ∧ sockets s = sockets s0 + length new
    ∧ ∀ k ip data,
        new !! k = Some (ip, data) →
        arrivals (udp w (sockets s0 + k) ip data) = [].

(** Since [s0], a datagram that was answered is the last one that was sent,
    and [res] holds its answers. *)
Definition stopped_at_answer (w : world) (s0 s : state) : Prop :=
  ∀ k ip data,
    sent s !! (length (sent s0) + k) = Some (ip, data) →
    nonempty (arrivals (udp w (sockets s0 + k) ip data)) = true →
    length (sent s) = length (sent s0) + S k
    ∧ (sendto_error (udp w (sockets s0 + k) ip data) = None →
       res s = received <$> arrivals (udp w (sockets s0 + k) ip data)).

(** The search for [ssdp_st] on the socket [sock] bound to [ip] goes out
    and gets no answer. *)
Definition unanswered_search `{PyLib} (w : world) (sock : nat)
    (ip ssdp_st : string) : Prop :=
  bind_error w sock ip = None
  ∧ quiet (udp w sock ip (ssdp_request ssdp_st SSDP_MX)).

(** ** Vocabulary of the further properties *)

(** The address and target pairs in the order of the two loops: the
    addresses that are not ignored, each with the three targets. *)
Definition plan (ips : list string) : list (string * string) :=
  flat_map (fun ip => (fun ssdp_st => (ip, ssdp_st)) <$> SSDP_ST_LIST)
    (List.filter (fun ip => negb (ignored ip)) ips).

(** The datagram that is sent for a pair, with its local address. *)
Definition request_of `{PyLib} (p : string * string) : string * bytes :=
  (p.1, ssdp_request p.2 SSDP_MX).

(** One loop over pairs that stops at the first pair after which [res] is
    not empty. *)
Fixpoint scan `{PyLib} (w : world) (pairs : list (string * string))
    : M unit :=
  match pairs with
  | [] => ret tt
  | (ip, ssdp_st) :: pairs' =>
      (sock <- broadcast w ip ssdp_st ;;
       r <- get_res ;;
       if nonempty r then sock_close sock
       else scan w pairs')%M
  end.

(** The numbers of the open sockets are below the number of the next
    socket. *)
Definition fresh (s : state) : Prop :=
  ∀ sock, sock ∈ open_sockets s → sock < sockets s.


(** The repetition of the lazy plus of [Re.match_here]: the rest of the
    pattern is tried before one more character is taken. *)
Fixpoint lazy_more (a : Re.atom) (p : Re.pattern) (before after : list ascii)
    : option (list ascii) :=
  match Re.match_here p before after with
  | Some m => Some m
  | None =>
      match after with
      | c :: after' =>
          if Re.atom_matches a c
          then cons c <$> lazy_more a p (c :: before) after'
          else None
      | [] => None
      end
  end.

(** The payloads of the datagrams, decoded. *)
Definition decode_all `{PyLib} (entries : list datagram)
    : option (list string) :=
  mapM (fun entry : datagram => utf8_decode entry.1) entries.

(** ** Tactics *)

(** Case analysis on every element access and test of the [try] body. *)
Ltac case_body :=
  repeat match goal with
  | |- context [device_text ?r ?p] =>
      destruct (device_text r p) eqn:?; cbn [rbind andb]
  | |- context [urlparse_hostname ?x] =>
      destruct (urlparse_hostname x) eqn:?; cbn [rbind andb]
  | |- context [py_in ?x ?l] =>
      destruct (py_in x l) eqn:?; cbn [rbind andb]
  | |- context [py_eq_str ?x ?s] =>
      destruct (py_eq_str x s) eqn:?; cbn [rbind andb]
  end.

(** * Properties *)

(** ** Strings and the request *)

Lemma list_ascii_of_string_app (a b : string) :
  list_ascii_of_string (a +:+ b) =
  list_ascii_of_string a ++ list_ascii_of_string b.
Proof.
  induction a as [|c a IH]; [reflexivity |].
  change (c :: list_ascii_of_string (a +:+ b) =
          c :: list_ascii_of_string a ++ list_ascii_of_string b).
  by rewrite IH.
Qed.

(** Joining lines of which the last is empty ends every other line with
    the separator. *)
Lemma join_terminated (sep : string) (lines : list string) :
  join sep (lines ++ [EmptyString]) =
  foldr (fun line rest => line +:+ sep +:+ rest) EmptyString lines.
Proof.
  induction lines as [|x lines IH]; [done |].
  cbn [app foldr]. rewrite <- IH.
  destruct lines; reflexivity.
Qed.

(** C8.  For every search target [ssdp_st] and integer [ssdp_mx] the request
    is the UTF-8 encoding of six lines, each followed by CRLF: the request
    line [M-SEARCH * HTTP/1.1], the headers [ST], [MX], [MAN] and [HOST] in
    this order, and the empty line. *)
Theorem ssdp_request_lines `{PyLib} (ssdp_st : string) (ssdp_mx : Z) :
  ssdp_request ssdp_st ssdp_mx =
  utf8_encode
    (foldr (fun line rest => line +:+ CRLF +:+ rest) EmptyString
       ["M-SEARCH * HTTP/1.1";
        "ST: " +:+ ssdp_st;
        "MX: " +:+ format_d ssdp_mx;
        "MAN: " +:+ DQUOTE +:+ "ssdp:discover" +:+ DQUOTE;
        "HOST: 239.255.255.250:1900";
        EmptyString]).
Proof.
  unfold ssdp_request. rewrite <- join_terminated. reflexivity.
Qed.

Example ssdp_request_all :
  string_of_list_byte (@ssdp_request sample_lib SSDP_ST_1 SSDP_MX) =
  "M-SEARCH * HTTP/1.1" +:+ CRLF +:+
  "ST: ssdp:all" +:+ CRLF +:+
  "MX: 2" +:+ CRLF +:+
  "MAN: " +:+ DQUOTE +:+ "ssdp:discover" +:+ DQUOTE +:+ CRLF +:+
  "HOST: 239.255.255.250:1900" +:+ CRLF +:+ CRLF.
Proof. reflexivity. Qed.

(** ** The local addresses and the pattern that ignores some

    The pattern [169.254.*.*] is searched in the address: it is not
    anchored and its dots stand for any character. *)

Example get_local_ips_home :
  get_local_ips (get_adapters (home XmlError)) = ["192.168.1.10"].
Proof. reflexivity. Qed.

(** A star over one character, unfolded once. *)
Lemma match_here_star (a : Re.atom) (p : Re.pattern) (before after : list ascii) :
  Re.match_here (Re.Star a :: p) before after =
  match after with
  | c :: after' =>
      if Re.atom_matches a c then
        match Re.match_here (Re.Star a :: p) (c :: before) after' with
        | Some m => Some (c :: m)
        | None => Re.match_here p before after
        end
      else Re.match_here p before after
  | [] => Re.match_here p before after
  end.
Proof. by destruct after. Qed.

(** A star never fails by itself. *)
Lemma match_here_star_some (a : Re.atom) (p : Re.pattern) :
  (∀ before after, is_Some (Re.match_here p before after)) →
  ∀ before after, is_Some (Re.match_here (Re.Star a :: p) before after).
Proof.
  intros Hp before after. revert before.
  induction after as [|c after IH]; intros before;
    rewrite match_here_star; [apply Hp |].
  destruct (Re.atom_matches a c); [|apply Hp].
  destruct (IH (c :: before)) as [m ->]. eauto.
Qed.

Lemma search_from_some (p : Re.pattern) (before skipped after : list ascii) :
  is_Some (Re.match_here p (rev skipped ++ before) after) →
  is_Some (Re.search_from p before (skipped ++ after)).
Proof.
  revert before. induction skipped as [|c skipped IH]; intros before Hm.
  { destruct Hm as [m Hm]. cbn [app rev] in *.
    destruct after; cbn [Re.search_from]; rewrite Hm; eauto. }
  cbn [app Re.search_from].
  destruct (Re.match_here p before _); [eauto |].
  apply IH. cbn [rev] in Hm. by rewrite <- List.app_assoc in Hm.
Qed.

Lemma match_here_one_some (a : Re.atom) (p : Re.pattern)
    (before after : list ascii) (c : ascii) :
  Re.atom_matches a c = true →
  is_Some (Re.match_here p (c :: before) after) →
  is_Some (Re.match_here (Re.One a :: p) before (c :: after)).
Proof.
  intros Ha Hp. cbn [Re.match_here]. rewrite Ha. by apply fmap_is_Some.
Qed.

(** The pattern matches every text in which [169.254] occurs, wherever it
    occurs: the pattern is not anchored, and nothing is required after the
    seven characters. *)
Lemma ignored_when_169_254_occurs (a b : string) :
  ignored (a +:+ "169.254" +:+ b) = true.
Proof.
  unfold ignored, Re.search. apply bool_decide_eq_true_2.
  rewrite !list_ascii_of_string_app, fmap_is_Some.
  apply search_from_some. cbn [list_ascii_of_string app].
  unfold LINK_LOCAL_RE.
  do 7 (apply match_here_one_some; [reflexivity |]).
  do 2 apply match_here_star_some. intros before after. by eexists.
Qed.

Example ignored_10_169_254_1 : ignored "10.169.254.1" = true.
Proof. apply (ignored_when_169_254_occurs "10." ".1"). Qed.

Lemma match_here_one_inv (a : Re.atom) (p : Re.pattern)
    (before after : list ascii) :
  is_Some (Re.match_here (Re.One a :: p) before after) →
  ∃ c after', after = c :: after' ∧ Re.atom_matches a c = true
              ∧ is_Some (Re.match_here p (c :: before) after').
Proof.
  destruct after as [|c after]; cbn [Re.match_here]; [by intros [? ?] |].
  destruct (Re.atom_matches a c) eqn:Ha; [|by intros [? ?]].
  rewrite fmap_is_Some. eauto.
Qed.

Lemma search_from_inv (p : Re.pattern) (before text : list ascii) :
  is_Some (Re.search_from p before text) →
  ∃ skipped after,
    text = skipped ++ after
    ∧ is_Some (Re.match_here p (rev skipped ++ before) after).
Proof.
  revert before. induction text as [|c text IH]; intros before.
  - cbn [Re.search_from]. destruct (Re.match_here p before []) eqn:Hm;
      [|by intros [? ?]].
    intros _. exists [], []. cbn [app rev]. by rewrite Hm.
  - cbn [Re.search_from]. destruct (Re.match_here p before (c :: text)) eqn:Hm.
    + intros _. exists [], (c :: text). cbn [app rev]. by rewrite Hm.
    + intros (skipped & after & -> & Hafter)%IH.
      exists (c :: skipped), after. cbn [app rev].
      by rewrite <- List.app_assoc.
Qed.

(** An address is ignored exactly when [169], one character and [254]
    occur in it, one after the other. *)
Lemma ignored_iff (ip : string) :
  ignored ip = true ↔
  ∃ a c b, c ≠ "010"%char
    ∧ list_ascii_of_string ip =
      a ++ list_ascii_of_string "169" ++ c :: list_ascii_of_string "254" ++ b.
Proof.
  unfold ignored, Re.search. rewrite bool_decide_eq_true, fmap_is_Some.
  split.
  - intros (a & after & -> & Hm)%search_from_inv. unfold LINK_LOCAL_RE in Hm.
    repeat match type of Hm with
    | is_Some (Re.match_here (Re.One _ :: _) _ _) =>
        apply match_here_one_inv in Hm as (? & ? & -> & ? & Hm)
    end.
    cbn [Re.atom_matches] in *.
    repeat match goal with
    | H : Ascii.eqb _ _ = true |- _ => apply Ascii.eqb_eq in H; subst
    | H : negb (Ascii.eqb _ _) = true |- _ =>
        apply negb_true_iff, Ascii.eqb_neq in H
    end.
    eauto 10.
  - intros (a & c & b & Hc & ->). apply search_from_some.
    cbn [list_ascii_of_string app]. unfold LINK_LOCAL_RE.
    do 3 (apply match_here_one_some; [reflexivity |]).
    apply match_here_one_some;
      [cbn [Re.atom_matches]; by apply negb_true_iff, Ascii.eqb_neq |].
    do 3 (apply match_here_one_some; [reflexivity |]).
    do 2 apply match_here_star_some. intros before after. by eexists.
Qed.

(** C4.  The pattern of the loop discards 169.254.3.4 and keeps
    192.168.1.10, and it also discards 1.169.254.2, which is not in
    169.254.0.0/16: on a host with this one address no socket is created
    and the set of urls is empty, although every search would be
    answered. *)
Theorem link_local_pattern_discards_other_addresses :
  ignored "169.254.3.4" = true
  ∧ ignored "192.168.1.10" = false
  ∧ ignored "1.169.254.2" = true
  ∧ @send_ssdp_broadcast sample_lib public_address initial = (Ok ∅, initial).
Proof. repeat split; vm_compute; reflexivity. Qed.

(** ** The evaluation of a description *)

Lemma device_text_raises (root : Element) (path : string) (e : exn) :
  device_text root path = Raise e → e = AttributeError.
Proof.
  unfold device_text, find_of, text_of, rbind.
  destruct (Element_find SCPD_DEVICE root) as [dev|]; [|congruence].
  destruct (Element_find path dev); congruence.
Qed.

Lemma hostname_raises `{PyLib} (x : pyval) (e : exn) :
  hostname x = Raise e → e = ValueError.
Proof. unfold hostname. destruct (urlparse_hostname x); congruence. Qed.

(** The [try] statement raises only what its [except] clause catches. *)
Lemma evaluate_body_raises `{PyLib} (body : xml_parse) (e : exn) :
  evaluate_body body = Raise e →
  e ∈ [AttributeError; ValueError; ParseError].
Proof.
  unfold evaluate_body, ET_fromstring, hostname.
  destruct body as [|root]; cbn [rbind].
  { intros [= <-]. rewrite !elem_of_cons. auto. }
  case_body; try discriminate;
    repeat match goal with
    | E : device_text _ _ = Raise _ |- _ => apply device_text_raises in E
    end;
    intros [= <-]; subst; rewrite !elem_of_cons; auto.
Qed.

(** With status 200 the function returns what the [try] statement
    returns, and [False] when that raises. *)
Lemma evaluate_200 `{PyLib} (w : world) (url : string) (body : xml_parse) :
  requests_get w url = GetResponse 200 body →
  evaluate_scpd_xml w url =
  match evaluate_body body with
  | Ok o => Ok o
  | Raise _ => Ok PyFalse
  end.
Proof.
  intros Hget. unfold evaluate_scpd_xml. rewrite Hget. cbn [Z.eqb Pos.eqb].
  unfold try_except.
  destruct (evaluate_body body) as [o|e] eqn:E; [done |].
  apply evaluate_body_raises in E. by rewrite bool_decide_eq_true_2.
Qed.

(** With another status the function returns [False]. *)
Lemma evaluate_other_status `{PyLib} (w : world) (url : string)
    (status_code : Z) (body : xml_parse) :
  requests_get w url = GetResponse status_code body →
  status_code ≠ 200%Z →
  evaluate_scpd_xml w url = Ok PyFalse.
Proof.
  intros Hget Hstatus. unfold evaluate_scpd_xml. rewrite Hget.
  by apply Z.eqb_neq in Hstatus as ->.
Qed.

(** C1, as the code has it.  For a response with status 200 whose text is
    well-formed XML, the function returns a dictionary iff the manufacturer
    is a supported one, the deviceType is the expected one, and the device
    also has the elements presentationURL, modelName, serialNumber and
    friendlyName, the first with a text that [urlparse] accepts.  When the
    manufacturer or the deviceType does not match it returns [False]. *)
Theorem record_iff_match_and_complete `{PyLib}
    (w : world) (url : string) (root : Element) :
  requests_get w url = GetResponse 200 (XmlRoot root) →
  ((∃ d, evaluate_scpd_xml w url = Ok (PyDict d)) ↔
   manufacturer_supported root = true
   ∧ device_type_expected root = true
   ∧ attributes_readable root = true)
  ∧ (manufacturer_supported root = false ∨ device_type_expected root = false →
     evaluate_scpd_xml w url = Ok PyFalse).
Proof.
  intros Hget. rewrite (evaluate_200 _ _ _ Hget).
  unfold evaluate_body, ET_fromstring, manufacturer_supported,
    device_type_expected, attributes_readable, has_element, hostname.
  cbn [rbind]. case_body.
  all: try rewrite bool_decide_eq_true_2 by eauto.
  all: try rewrite bool_decide_eq_false_2 by (intros [? ?]; discriminate).
  all: split; [split; [intros [? ?]|intros (? & ? & ?)] | intros [?|?]];
    try discriminate; try done; eauto.
Qed.

(** The description of a Denon receiver with all its elements. *)
Lemma record_iff_match_and_complete_witness :
  requests_get (home (XmlRoot living_room_avr)) desc_url =
    GetResponse 200 (XmlRoot living_room_avr)
  ∧ ((∃ d, @evaluate_scpd_xml sample_lib (home (XmlRoot living_room_avr))
             desc_url = Ok (PyDict d)) ↔
     manufacturer_supported living_room_avr = true
     ∧ device_type_expected living_room_avr = true
     ∧ @attributes_readable sample_lib living_room_avr = true)
  ∧ (manufacturer_supported living_room_avr = false
     ∨ device_type_expected living_room_avr = false →
     @evaluate_scpd_xml sample_lib (home (XmlRoot living_room_avr)) desc_url =
     Ok PyFalse).
Proof.
  split; [reflexivity |].
  apply (@record_iff_match_and_complete sample_lib). reflexivity.
Defined.

(** C1 fails as stated: the description of a renderer of a supported
    manufacturer with the expected deviceType, but without a
    presentationURL, gives [False]. *)
Lemma match_without_presentation_url_is_rejected :
  requests_get (home (XmlRoot no_presentation_avr)) desc_url =
    GetResponse 200 (XmlRoot no_presentation_avr)
  ∧ manufacturer_supported no_presentation_avr = true
  ∧ device_type_expected no_presentation_avr = true
  ∧ @evaluate_scpd_xml sample_lib (home (XmlRoot no_presentation_avr))
      desc_url = Ok PyFalse.
Proof. repeat split; vm_compute; reflexivity. Qed.

(** C6.  For a response with status 200 the function never raises: what
    the [try] statement raises becomes [False].  It returns [False] when
    the text is not well-formed XML, when the root has no device, and when
    the device lacks one of the six elements that are read. *)
Theorem malformed_description_is_rejected `{PyLib}
    (w : world) (url : string) (body : xml_parse) :
  requests_get w url = GetResponse 200 body →
  (∃ o, evaluate_scpd_xml w url = Ok o)
  ∧ (∀ e, evaluate_body body = Raise e → evaluate_scpd_xml w url = Ok PyFalse)
  ∧ (body = XmlError → evaluate_scpd_xml w url = Ok PyFalse)
  ∧ (∀ root, body = XmlRoot root →
       Element_find SCPD_DEVICE root = None →
       evaluate_scpd_xml w url = Ok PyFalse)
  ∧ (∀ root path, body = XmlRoot root →
       path ∈ [SCPD_MANUFACTURER; SCPD_DEVICETYPE; SCPD_PRESENTATIONURL;
               SCPD_MODELNAME; SCPD_SERIALNUMBER; SCPD_FRIENDLYNAME] →
       has_element root path = false →
       evaluate_scpd_xml w url = Ok PyFalse).
Proof.
  intros Hget. rewrite (evaluate_200 _ _ _ Hget).
  split; [destruct (evaluate_body body); eauto |].
  split; [by intros e -> |].
  split; [by intros -> |].
  split.
  - intros root -> Hdev.
    unfold evaluate_body, device_text, ET_fromstring. cbn [rbind].
    by rewrite Hdev.
  - intros root path -> Hpath.
    unfold has_element, evaluate_body, ET_fromstring, hostname. cbn [rbind].
    repeat (apply elem_of_cons in Hpath as [-> | Hpath]);
      [.. | by apply elem_of_nil in Hpath];
      case_body; done.
Qed.

(** A description without a presentationURL element. *)
Lemma malformed_description_is_rejected_witness :
  requests_get (home (XmlRoot no_presentation_avr)) desc_url =
    GetResponse 200 (XmlRoot no_presentation_avr)
  ∧ has_element no_presentation_avr SCPD_PRESENTATIONURL = false
  ∧ @evaluate_scpd_xml sample_lib (home (XmlRoot no_presentation_avr))
      desc_url = Ok PyFalse.
Proof.
  split; [reflexivity |]. split; [reflexivity |].
  destruct (@malformed_description_is_rejected sample_lib
              (home (XmlRoot no_presentation_avr)) desc_url
              (XmlRoot no_presentation_avr) eq_refl)
    as (_ & _ & _ & _ & Hmissing).
  apply (Hmissing no_presentation_avr SCPD_PRESENTATIONURL eq_refl);
    [|reflexivity].
  rewrite !elem_of_cons. auto.
Defined.

Example truncated_description_is_rejected :
  @evaluate_scpd_xml sample_lib (home XmlError) desc_url = Ok PyFalse.
Proof. reflexivity. Qed.

(** C10.  The manufacturer is looked up in the list of the three names
    Denon, DENON and Marantz, with the equality of strings: a description
    with any other manufacturer text, such as denon or marantz, gives
    [False], whatever its deviceType. *)
Theorem manufacturer_check_is_case_sensitive `{PyLib}
    (w : world) (url : string) (root : Element) (manufacturer : pyval) :
  requests_get w url = GetResponse 200 (XmlRoot root) →
  device_text root SCPD_MANUFACTURER = Ok manufacturer →
  manufacturer ∉ [PyStr "Denon"; PyStr "DENON"; PyStr "Marantz"] →
  evaluate_scpd_xml w url = Ok PyFalse
  ∧ py_in (PyStr "denon") SUPPORTED_MANUFACTURERS = false
  ∧ py_in (PyStr "marantz") SUPPORTED_MANUFACTURERS = false.
Proof.
  intros Hget Hm Hnot. split; [|by split].
  rewrite (evaluate_200 _ _ _ Hget).
  unfold evaluate_body, ET_fromstring. cbn [rbind]. rewrite Hm. cbn [rbind].
  replace (py_in manufacturer SUPPORTED_MANUFACTURERS) with false; [done |].
  symmetry. destruct manufacturer as [|s]; [done |].
  apply bool_decide_eq_false_2. intros Hin. apply Hnot.
  unfold SUPPORTED_MANUFACTURERS in Hin.
  rewrite !elem_of_cons in Hin. rewrite !elem_of_cons.
  destruct Hin as [-> | [-> | [-> | Hin]]]; auto.
  by apply elem_of_nil in Hin.
Qed.

(** A description with the manufacturer denon and the expected deviceType. *)
Lemma manufacturer_check_is_case_sensitive_witness :
  requests_get (home (XmlRoot lower_case_avr)) desc_url =
    GetResponse 200 (XmlRoot lower_case_avr)
  ∧ device_text lower_case_avr SCPD_MANUFACTURER = Ok (PyStr "denon")
  ∧ device_type_expected lower_case_avr = true
  ∧ @evaluate_scpd_xml sample_lib (home (XmlRoot lower_case_avr)) desc_url =
    Ok PyFalse.
Proof.
  split; [reflexivity |]. split; [reflexivity |]. split; [reflexivity |].
  apply (@manufacturer_check_is_case_sensitive sample_lib
           (home (XmlRoot lower_case_avr)) desc_url lower_case_avr
           (PyStr "denon") eq_refl eq_refl).
  rewrite !elem_of_cons.
  intros [H | [H | [H | H]]]; [discriminate H.. | by apply elem_of_nil in H].
Defined.

(** ** The dictionary of a receiver *)

Lemma evaluate_dict `{PyLib} (w : world) (url : string) (d : gmap string pyval) :
  evaluate_scpd_xml w url = Ok (PyDict d) →
  ∃ root m u h mn sn fn,
    requests_get w url = GetResponse 200 (XmlRoot root)
    ∧ device_text root SCPD_MANUFACTURER = Ok (PyStr m)
    ∧ m ∈ SUPPORTED_MANUFACTURERS
    ∧ device_text root SCPD_DEVICETYPE = Ok (PyStr DEVICETYPE_DENON)
    ∧ device_text root SCPD_PRESENTATIONURL = Ok u
    ∧ urlparse_hostname u = Some h
    ∧ device_text root SCPD_MODELNAME = Ok mn
    ∧ device_text root SCPD_SERIALNUMBER = Ok sn
    ∧ device_text root SCPD_FRIENDLYNAME = Ok fn
    ∧ d = <["friendlyName" := fn]> (<["serialNumber" := sn]>
          (<["modelName" := mn]> (<["presentationURL" := u]>
          (<["host" := h]> (<["manufacturer" := PyStr m]> ∅))))).
Proof.
  unfold evaluate_scpd_xml.
  destruct (requests_get w url) as [| |status body] eqn:Hget; try discriminate.
  destruct (status =? 200)%Z eqn:Hstatus; [|discriminate].
  apply Z.eqb_eq in Hstatus as ->.
  unfold try_except.
  destruct (evaluate_body body) as [o|e] eqn:Hbody;
    [|by destruct (bool_decide _)].
  intros [= ->]. revert Hbody.
  unfold evaluate_body, ET_fromstring, hostname.
  destruct body as [|root]; [discriminate |]. cbn [rbind].
  case_body; try discriminate.
  intros [= <-].
  repeat match goal with
  | E : py_in ?x _ = true |- _ =>
      destruct x; [discriminate | apply bool_decide_eq_true_1 in E]
  | E : py_eq_str _ _ = true |- _ => apply bool_decide_eq_true_1 in E; subst
  end.
  eauto 20.
Qed.

Lemma device_keys_insert (m h u mn sn fn : pyval) :
  dom (<["friendlyName" := fn]> (<["serialNumber" := sn]>
      (<["modelName" := mn]> (<["presentationURL" := u]>
      (<["host" := h]> (<["manufacturer" := m]> (∅ : gmap string pyval)))))))
  = device_keys.
Proof.
  rewrite !dom_insert_L, dom_empty_L.
  unfold device_keys, DeviceRecord_fields.
  apply set_eq. intros k. rewrite !elem_of_union, !elem_of_singleton.
  rewrite elem_of_empty. tauto.
Qed.

Lemma evaluate_dict_keys `{PyLib} (w : world) (url : string)
    (d : gmap string pyval) :
  evaluate_scpd_xml w url = Ok (PyDict d) → dom d = device_keys.
Proof.
  intros (root & m & u & h & mn & sn & fn & _ & _ & _ & _ & _ & _ & _ & _ & _ & ->)
    %evaluate_dict.
  apply device_keys_insert.
Qed.

(** The dictionary is not empty, so the entry point keeps it. *)
Lemma evaluate_dict_truthy `{PyLib} (w : world) (url : string)
    (d : gmap string pyval) :
  evaluate_scpd_xml w url = Ok (PyDict d) → truthy (PyDict d) = true.
Proof.
  intros Hd%evaluate_dict_keys. unfold truthy.
  rewrite bool_decide_eq_false_2; [done |].
  intros ->. rewrite dom_empty_L in Hd.
  assert (Hin : "manufacturer" ∈ device_keys)
    by (unfold device_keys; apply elem_of_union_l; by apply elem_of_singleton).
  rewrite <- Hd in Hin. by apply elem_of_empty in Hin.
Qed.

(** The function raises request exceptions only. *)
Lemma evaluate_raises `{PyLib} (w : world) (url : string) (e : exn) :
  evaluate_scpd_xml w url = Raise e → is_RequestException e = true.
Proof.
  unfold evaluate_scpd_xml.
  destruct (requests_get w url) as [| |status body] eqn:Hget;
    [by intros [= <-] | by intros [= <-] |].
  destruct (status =? 200)%Z; [|discriminate].
  unfold try_except.
  destruct (evaluate_body body) as [o|e'] eqn:Hbody; [discriminate |].
  apply evaluate_body_raises in Hbody. by rewrite bool_decide_eq_true_2.
Qed.

(** ** The entry point *)

Lemma receivers_loop_validated `{PyLib} (w : world) (urls : list string)
    (receivers : list pyobj) :
  receivers_loop w urls receivers = Ok (receivers ++ omap (validated w) urls).
Proof.
  revert receivers. induction urls as [|url urls IH]; intros receivers.
  { cbn. by rewrite List.app_nil_r. }
  cbn [receivers_loop omap list_omap].
  destruct (evaluate_scpd_xml w url) as [[|d]|e] eqn:Heval.
  - replace (validated w url) with (@None pyobj)
      by (unfold validated; by rewrite Heval).
    cbn [truthy]. apply IH.
  - replace (validated w url) with (Some (PyDict d))
      by (unfold validated; by rewrite Heval).
    rewrite (evaluate_dict_truthy _ _ _ Heval), IH.
    by rewrite <- List.app_assoc.
  - replace (validated w url) with (@None pyobj)
      by (unfold validated; by rewrite Heval).
    rewrite (evaluate_raises _ _ _ Heval). apply IH.
Qed.



(** C2, as the code has it.  Every element of the list that the entry
    point returns is a dictionary with exactly the six keys manufacturer,
    host, presentationURL, modelName, serialNumber and friendlyName.  Under
    manufacturer is one of the supported names; under the next four keys
    are the texts of the elements of a description that was fetched with
    status 200, each a string or [None]; under host is the hostname of the
    presentation url, a string or [None]. *)
Theorem receivers_are_device_dicts `{PyLib}
    (w : world) (s s' : state) (receivers : list pyobj) (r : pyobj) :
  identify_denonavr_receivers w s = (Ok receivers, s') →
  r ∈ receivers →
  ∃ d, r = PyDict d
    ∧ dom d = {[ "manufacturer" ]} ∪ DeviceRecord_fields
    ∧ (∃ m, d !! "manufacturer" = Some (PyStr m)
            ∧ m ∈ SUPPORTED_MANUFACTURERS)
    ∧ ∃ url root,
        requests_get w url = GetResponse 200 (XmlRoot root)
        ∧ field_of root SCPD_MANUFACTURER d "manufacturer"
        ∧ field_of root SCPD_PRESENTATIONURL d "presentationURL"
        ∧ field_of root SCPD_MODELNAME d "modelName"
        ∧ field_of root SCPD_SERIALNUMBER d "serialNumber"
        ∧ field_of root SCPD_FRIENDLYNAME d "friendlyName"
        ∧ ∃ u h, device_text root SCPD_PRESENTATIONURL = Ok u
                 ∧ urlparse_hostname u = Some h
                 ∧ d !! "host" = Some h.
Proof.
  unfold identify_denonavr_receivers, bind, lift.
  destruct (send_ssdp_broadcast w s) as [[urls|e] s1]; [|discriminate].
  rewrite receivers_loop_validated. cbn [app].
  intros [= <- <-] Hin.
  apply list_elem_of_omap in Hin as (url & _ & Hval).
  unfold validated in Hval.
  destruct (evaluate_scpd_xml w url) as [[|d]|e] eqn:Heval; try discriminate.
  injection Hval as <-. exists d. split; [done |].
  split; [by eapply evaluate_dict_keys |].
  apply evaluate_dict in Heval
    as (root & m & u & h & mn & sn & fn & Hget & Hm & Hsup & _ & Hu & Hh
        & Hmn & Hsn & Hfn & ->).
  split; [exists m; by simplify_map_eq |].
  exists url, root. split; [done |].
  unfold field_of.
  split; [eexists; split; [exact Hm | by simplify_map_eq] |].
  split; [eexists; split; [exact Hu | by simplify_map_eq] |].
  split; [eexists; split; [exact Hmn | by simplify_map_eq] |].
  split; [eexists; split; [exact Hsn | by simplify_map_eq] |].
  split; [eexists; split; [exact Hfn | by simplify_map_eq] |].
  exists u, h. by simplify_map_eq.
Qed.

(** The run of the end-to-end scenario: one receiver in the living room. *)
Lemma receivers_are_device_dicts_witness :
  let run :=
    @identify_denonavr_receivers sample_lib (home (XmlRoot living_room_avr))
      initial in
  run.1 = Ok [PyDict living_room_record]
  ∧ ∃ d, PyDict living_room_record = PyDict d
    ∧ dom d = {[ "manufacturer" ]} ∪ DeviceRecord_fields
    ∧ (∃ m, d !! "manufacturer" = Some (PyStr m)
            ∧ m ∈ SUPPORTED_MANUFACTURERS)
    ∧ ∃ url root,
        requests_get (home (XmlRoot living_room_avr)) url =
          GetResponse 200 (XmlRoot root)
        ∧ field_of root SCPD_MANUFACTURER d "manufacturer"
        ∧ field_of root SCPD_PRESENTATIONURL d "presentationURL"
        ∧ field_of root SCPD_MODELNAME d "modelName"
        ∧ field_of root SCPD_SERIALNUMBER d "serialNumber"
        ∧ field_of root SCPD_FRIENDLYNAME d "friendlyName"
        ∧ ∃ u h, device_text root SCPD_PRESENTATIONURL = Ok u
                 ∧ sample_hostname u = Some h
                 ∧ d !! "host" = Some h.
Proof.
  intros run.
  assert (Hrun : run.1 = Ok [PyDict living_room_record])
    by reflexivity.
  split; [exact Hrun |].
  apply (@receivers_are_device_dicts sample_lib
           (home (XmlRoot living_room_avr)) initial run.2
           [PyDict living_room_record]).
  - fold run. destruct run as [r s']. cbn in Hrun. by subst r.
  - apply list_elem_of_here.
Defined.

(** C2 fails as stated: the dictionary of a receiver that gives no serial
    number has the key manufacturer besides the five fields, and [None]
    under serialNumber. *)
Lemma receiver_with_sixth_key_and_none :
  (@identify_denonavr_receivers sample_lib (home (XmlRoot no_serial_avr))
     initial).1 = Ok [PyDict kitchen_record]
  ∧ kitchen_record !! "manufacturer" = Some (PyStr "Marantz")
  ∧ kitchen_record !! "serialNumber" = Some PyNone
  ∧ ¬ DeviceRecord_shaped (PyDict kitchen_record).
Proof.
  assert (Hnone : kitchen_record !! "serialNumber" = Some PyNone)
    by reflexivity.
  split; [reflexivity |].
  split; [reflexivity |]. split; [exact Hnone |].
  intros (d & [= <-] & _ & Hstr).
  destruct (Hstr "serialNumber" PyNone Hnone) as [s Hs]. discriminate Hs.
Qed.

(** ** The LOCATION pattern *)



Lemma literal_prefix (l s : list ascii) :
  Re.atoms_prefix (map Re.Chr l) s = true → ∃ r, s = l ++ r.
Proof.
  revert s. induction l as [|c l IH]; intros s; [by exists s |].
  destruct s as [|c' s]; [discriminate |]. cbn [map Re.atoms_prefix].
  intros [Hc Hl]%andb_true_iff. apply Ascii.eqb_eq in Hc as <-.
  destruct (IH _ Hl) as [r ->]. by exists r.
Qed.

Lemma match_here_location (before after : list ascii) :
  Re.match_here LOCATION_RE before after =
  if Re.atoms_prefix LOCATION_BEHIND before
  then Re.match_here [Re.LazyPlus Re.Dot; Re.LookAhead [Re.Chr "013"]]
         before after
  else None.
Proof. reflexivity. Qed.

Lemma LOCATION_BEHIND_atoms :
  LOCATION_BEHIND =
  Re.Space :: map Re.Chr (rev (list_ascii_of_string "LOCATION:")).
Proof. reflexivity. Qed.






(** The lazy plus, unfolded once. *)
Lemma match_here_lazy (a : Re.atom) (p : Re.pattern) (before after : list ascii) :
  Re.match_here (Re.LazyPlus a :: p) before after =
  match after with
  | c :: after' =>
      if Re.atom_matches a c
      then cons c <$> lazy_more a p (c :: before) after'
      else None
  | [] => None
  end.
Proof.
  destruct after as [|c after]; [reflexivity |]. cbn [Re.match_here].
  destruct (Re.atom_matches a c); [|reflexivity]. f_equal.
  generalize (c :: before). induction after as [|c' after IH]; intros b.
  - reflexivity.
  - cbn [lazy_more]. destruct (Re.match_here p b (c' :: after)); [done |].
    destruct (Re.atom_matches a c'); [|done]. by rewrite IH.
Qed.










(** The look-behind is not anchored at the start of a line: the value of a
    header whose name ends with LOCATION is a header value too. *)
Example location_of_content_location_header :
  location ("HTTP/1.1 200 OK" +:+ CRLF +:+
            "CONTENT-LOCATION: /index" +:+ CRLF +:+
            "LOCATION: http://10.0.0.5:60006/desc.xml" +:+ CRLF +:+
            "ST: upnp:rootdevice" +:+ CRLF +:+ CRLF) = Some "/index".
Proof. reflexivity. Qed.

(** ** The sockets of a broadcast *)

Lemma recv_loop_run (arriving : list datagram) (ending : exn) (s : state) :
  recv_loop arriving ending s =
  (Raise ending,
   {| sockets := sockets s;
      open_sockets := open_sockets s;
      sent := sent s;
      res := res s ++ (received <$> arriving) |}).
Proof.
  revert s. induction arriving as [|[data addr] arriving IH]; intros s.
  { cbn. rewrite List.app_nil_r. by destruct s. }
  cbn [recv_loop]. unfold bind, res_append, set_res. rewrite IH. cbn.
  by rewrite <- List.app_assoc.
Qed.

(** What one broadcast does, case by case. *)
Lemma broadcast_run `{PyLib} (w : world) (ip ssdp_st : string) (s : state) :
  let sock := sockets s in
  let data := ssdp_request ssdp_st SSDP_MX in
  let x := udp w sock ip data in
  broadcast w ip ssdp_st s =
  match bind_error w sock ip with
  | Some e =>
      (Raise e,
       {| sockets := S sock;
          open_sockets := {[sock]} ∪ open_sockets s;
          sent := sent s;
          res := res s |})
  | None =>
      match sendto_error x with
      | Some e =>
          (Raise e,
           {| sockets := S sock;
              open_sockets := {[sock]} ∪ open_sockets s;
              sent := sent s ++ [(ip, data)];
              res := res s |})
      | None =>
          if bool_decide (recv_end x = socket_timeout) then
            (Ok sock,
             {| sockets := S sock;
                open_sockets := ({[sock]} ∪ open_sockets s) ∖ {[sock]};
                sent := sent s ++ [(ip, data)];
                res := res s ++ (received <$> arrivals x) |})
          else
            (Raise (recv_end x),
             {| sockets := S sock;
                open_sockets := {[sock]} ∪ open_sockets s;
                sent := sent s ++ [(ip, data)];
                res := res s ++ (received <$> arrivals x) |})
      end
  end.
Proof.
  intros sock data x. subst sock data x.
  unfold broadcast, bind, socket_socket, sock_bind, sock_sendto, try_catch.
  cbn [sockets open_sockets sent res].
  destruct (bind_error w (sockets s) ip); [done |]. cbn [ret].
  destruct (sendto_error _); [done |].
  rewrite recv_loop_run. cbn [sockets open_sockets sent res].
  by destruct (bool_decide _).
Qed.

(** A broadcast that returns has closed its socket: it returns when the
    receive loop ends with [socket.timeout]. *)
Lemma broadcast_closes_on_timeout `{PyLib} (w : world) (ip ssdp_st : string)
    (s : state) (sock : nat) :
  (broadcast w ip ssdp_st s).1 = Ok sock →
  sock = sockets s ∧ sock ∉ open_sockets (broadcast w ip ssdp_st s).2.
Proof.
  rewrite broadcast_run.
  destruct (bind_error _ _ _); [discriminate |].
  destruct (sendto_error _); [discriminate |].
  destruct (bool_decide _); [|discriminate].
  cbn [fst snd open_sockets]. intros [= <-]. split; [done |].
  rewrite elem_of_difference, elem_of_singleton. tauto.
Qed.

(** A broadcast that raises leaves its socket open. *)
Lemma broadcast_leaves_open_on_error `{PyLib} (w : world)
    (ip ssdp_st : string) (s : state) (e : exn) :
  (broadcast w ip ssdp_st s).1 = Raise e →
  sockets s ∈ open_sockets (broadcast w ip ssdp_st s).2.
Proof.
  rewrite broadcast_run.
  destruct (bind_error _ _ _);
    [intros _; apply elem_of_union_l; by apply elem_of_singleton |].
  destruct (sendto_error _);
    [intros _; apply elem_of_union_l; by apply elem_of_singleton |].
  destruct (bool_decide _); [discriminate |].
  intros _. apply elem_of_union_l. by apply elem_of_singleton.
Qed.

(** C3.  On a host whose receive call fails with an error that is not a
    timeout, the broadcast raises the error and leaves the socket 0 open,
    and so does the search as a whole. *)
Theorem socket_stays_open_after_receive_error :
  let cycle :=
    @broadcast sample_lib network_down "192.168.1.10" SSDP_ST_1 initial in
  let search := @send_ssdp_broadcast sample_lib network_down initial in
  cycle.1 = Raise OSError
  ∧ open_sockets cycle.2 = {[ 0 ]}
  ∧ search.1 = Raise OSError
  ∧ open_sockets search.2 = {[ 0 ]}.
Proof. repeat split; reflexivity. Qed.

(** ** The order of the broadcasts *)

Lemma unanswered_refl (w : world) (s0 s : state) :
  sent s = sent s0 → sockets s = sockets s0 → unanswered w s0 s.
Proof.
  intros Hsent Hsock. exists []. rewrite List.app_nil_r. cbn.
  split; [done |]. split; [lia |]. intros k ip data Hk. by destruct k.
Qed.

Lemma unanswered_snoc (w : world) (s0 s s1 : state) (ip : string) (data : bytes) :
  unanswered w s0 s →
  sent s1 = sent s ++ [(ip, data)] →
  sockets s1 = S (sockets s) →
  arrivals (udp w (sockets s) ip data) = [] →
  unanswered w s0 s1.
Proof.
  intros (new & Hsent & Hsock & Hquiet) Hsent1 Hsock1 Hx.
  exists (new ++ [(ip, data)]).
  split; [by rewrite Hsent1, Hsent, List.app_assoc |].
  split; [rewrite length_app; cbn; lia |].
  intros k ip' data' Hk.
  apply lookup_snoc_Some in Hk as [[_ Hk] | [-> [= <- <-]]]; [eauto |].
  by rewrite <- Hsock.
Qed.

Lemma stopped_of_unanswered (w : world) (s0 s s1 : state) :
  unanswered w s0 s → sent s1 = sent s → stopped_at_answer w s0 s1.
Proof.
  intros (new & Hsent & _ & Hquiet) Hsent1 k ip data Hk Hx.
  rewrite Hsent1, Hsent, lookup_app_r, Nat.add_comm, Nat.add_sub in Hk by lia.
  apply Hquiet in Hk. rewrite Hk in Hx. discriminate.
Qed.

Lemma stopped_of_snoc (w : world) (s0 s s1 : state) (ip : string) (data : bytes) :
  unanswered w s0 s →
  sent s1 = sent s ++ [(ip, data)] →
  (sendto_error (udp w (sockets s) ip data) = None →
   res s1 = received <$> arrivals (udp w (sockets s) ip data)) →
  stopped_at_answer w s0 s1.
Proof.
  intros (new & Hsent & Hsock & Hquiet) Hsent1 Hres k ip' data' Hk Hx.
  rewrite Hsent1, Hsent, <- List.app_assoc in Hk.
  rewrite lookup_app_r, Nat.add_comm, Nat.add_sub in Hk by lia.
  apply lookup_snoc_Some in Hk as [[_ Hk] | [-> [= <- <-]]].
  { apply Hquiet in Hk. rewrite Hk in Hx. discriminate. }
  rewrite <- Hsock. split; [|done].
  rewrite Hsent1, Hsent, !length_app. cbn. lia.
Qed.

Lemma stopped_same (w : world) (s0 s s1 : state) :
  stopped_at_answer w s0 s → sent s1 = sent s → res s1 = res s →
  stopped_at_answer w s0 s1.
Proof.
  intros Hstop Hsent Hres k ip data. rewrite Hsent, Hres. apply Hstop.
Qed.

Lemma fmap_received_nil (l : list datagram) :
  received <$> l = [] → l = [].
Proof. by destruct l. Qed.

Lemma nonempty_false {A} (l : list A) : nonempty l = false → l = [].
Proof. by destruct l. Qed.

(** One broadcast keeps the invariant of the loops. *)
Lemma broadcast_inv `{PyLib} (w : world) (s0 s : state) (ip ssdp_st : string) :
  unanswered w s0 s → res s = [] →
  stopped_at_answer w s0 (broadcast w ip ssdp_st s).2
  ∧ (∀ sock, (broadcast w ip ssdp_st s).1 = Ok sock →
       res (broadcast w ip ssdp_st s).2 = [] →
       unanswered w s0 (broadcast w ip ssdp_st s).2).
Proof.
  intros Hinv Hres. rewrite broadcast_run.
  destruct (bind_error w (sockets s) ip) as [e|].
  { split; [by eapply stopped_of_unanswered | done]. }
  destruct (sendto_error _) as [e|] eqn:Hsend.
  { split; [|done]. eapply stopped_of_snoc; [done.. |].
    rewrite Hsend. discriminate. }
  rewrite Hres. cbn [app].
  destruct (bool_decide _); cbn [fst snd].
  - split; [by eapply stopped_of_snoc |].
    intros _ _ Hempty%fmap_received_nil. by eapply unanswered_snoc.
  - split; [by eapply stopped_of_snoc | done].
Qed.

Lemma st_loop_cons `{PyLib} (w : world) (ip ssdp_st : string)
    (sts : list string) (s : state) :
  st_loop w ip (ssdp_st :: sts) s =
  match broadcast w ip ssdp_st s with
  | (Ok sock, s1) =>
      if nonempty (res s1) then sock_close sock s1 else st_loop w ip sts s1
  | (Raise e, s1) => (Raise e, s1)
  end.
Proof.
  cbn [st_loop]. unfold bind, get_res.
  destruct (broadcast w ip ssdp_st s) as [[sock|e] s1]; [|done].
  by destruct (nonempty (res s1)).
Qed.

Lemma ip_loop_cons `{PyLib} (w : world) (ip : string) (ips : list string)
    (s : state) :
  ip_loop w (ip :: ips) s =
  if ignored ip then ip_loop w ips s
  else
    match st_loop w ip SSDP_ST_LIST s with
    | (Ok _, s1) => if nonempty (res s1) then (Ok tt, s1) else ip_loop w ips s1
    | (Raise e, s1) => (Raise e, s1)
    end.
Proof.
  cbn [ip_loop]. destruct (ignored ip); [done |]. unfold bind, get_res.
  destruct (st_loop w ip SSDP_ST_LIST s) as [[[]|e] s1]; [|done].
  by destruct (nonempty (res s1)).
Qed.

Lemma st_loop_inv `{PyLib} (w : world) (s0 : state) (ip : string)
    (sts : list string) (s : state) :
  unanswered w s0 s → res s = [] →
  stopped_at_answer w s0 (st_loop w ip sts s).2
  ∧ ((st_loop w ip sts s).1 = Ok tt →
     res (st_loop w ip sts s).2 = [] →
     unanswered w s0 (st_loop w ip sts s).2).
Proof.
  revert s. induction sts as [|ssdp_st sts IH]; intros s Hinv Hres.
  { cbn. split; [by eapply stopped_of_unanswered | done]. }
  rewrite st_loop_cons.
  destruct (broadcast_inv w s0 s ip ssdp_st Hinv Hres) as [Hstop Hcont].
  destruct (broadcast w ip ssdp_st s) as [[sock|e] s1]; [|done].
  cbn [fst snd] in Hstop, Hcont.
  destruct (nonempty (res s1)) eqn:Hne.
  - cbn [sock_close fst snd].
    split; [by eapply stopped_same |].
    intros _ Hnil. cbn in Hnil. rewrite Hnil in Hne. discriminate.
  - apply nonempty_false in Hne. apply IH; eauto.
Qed.

Lemma ip_loop_inv `{PyLib} (w : world) (s0 : state) (ips : list string)
    (s : state) :
  unanswered w s0 s → res s = [] →
  stopped_at_answer w s0 (ip_loop w ips s).2.
Proof.
  revert s. induction ips as [|ip ips IH]; intros s Hinv Hres.
  { cbn. by eapply stopped_of_unanswered. }
  rewrite ip_loop_cons. destruct (ignored ip); [by apply IH |].
  destruct (st_loop_inv w s0 ip SSDP_ST_LIST s Hinv Hres) as [Hstop Hcont].
  destruct (st_loop w ip SSDP_ST_LIST s) as [[[]|e] s1]; [|done].
  cbn [fst snd] in Hstop, Hcont.
  destruct (nonempty (res s1)) eqn:Hne; [done |].
  apply nonempty_false in Hne. apply IH; eauto.
Qed.

(** The sockets and the list [res] do not depend on the decoding of the
    responses. *)
Lemma send_ssdp_broadcast_state `{PyLib} (w : world) (s : state) :
  (send_ssdp_broadcast w s).2 =
  (ip_loop w (get_local_ips (get_adapters w))
     {| sockets := sockets s; open_sockets := open_sockets s;
        sent := sent s; res := [] |}).2.
Proof.
  unfold send_ssdp_broadcast, bind, set_res, get_res, lift.
  by destruct (ip_loop _ _ _) as [[[]|e] s1].
Qed.

Lemma send_ssdp_broadcast_stops `{PyLib} (w : world) (s : state) :
  stopped_at_answer w s (send_ssdp_broadcast w s).2.
Proof.
  rewrite send_ssdp_broadcast_state.
  eapply stopped_same; [|reflexivity..].
  apply (ip_loop_inv w {| sockets := sockets s; open_sockets := open_sockets s;
                          sent := sent s; res := [] |}); [|done].
  by apply unanswered_refl.
Qed.

(** A search without an answer, as a step of the loop. *)
Lemma st_loop_unanswered `{PyLib} (w : world) (ip ssdp_st : string)
    (sts : list string) (s : state) :
  unanswered_search w (sockets s) ip ssdp_st →
  res s = [] →
  st_loop w ip (ssdp_st :: sts) s =
  st_loop w ip sts
    {| sockets := S (sockets s);
       open_sockets := ({[sockets s]} ∪ open_sockets s) ∖ {[sockets s]};
       sent := sent s ++ [(ip, ssdp_request ssdp_st SSDP_MX)];
       res := [] |}.
Proof.
  intros (Hbind & Hsend & Harr & Hend) Hres.
  rewrite st_loop_cons, broadcast_run, Hbind, Hsend, Hend, Harr, Hres.
  by rewrite bool_decide_eq_true_2.
Qed.

(** The scenario of the specification: nothing answers the three searches
    on the first address, something answers the first search on the
    second.  Four datagrams go out. *)
Lemma two_addresses_run `{PyLib} (w : world) (s : state)
    (a1 a2 : string) (rest : list string) :
  get_local_ips (get_adapters w) = a1 :: a2 :: rest →
  ignored a1 = false →
  ignored a2 = false →
  unanswered_search w (sockets s) a1 SSDP_ST_1 →
  unanswered_search w (sockets s + 1) a1 SSDP_ST_2 →
  unanswered_search w (sockets s + 2) a1 SSDP_ST_3 →
  bind_error w (sockets s + 3) a2 = None →
  sendto_error (udp w (sockets s + 3) a2 (ssdp_request SSDP_ST_1 SSDP_MX))
    = None →
  nonempty (arrivals (udp w (sockets s + 3) a2
                        (ssdp_request SSDP_ST_1 SSDP_MX))) = true →
  sent (send_ssdp_broadcast w s).2 =
    sent s ++ [(a1, ssdp_request SSDP_ST_1 SSDP_MX);
               (a1, ssdp_request SSDP_ST_2 SSDP_MX);
               (a1, ssdp_request SSDP_ST_3 SSDP_MX);
               (a2, ssdp_request SSDP_ST_1 SSDP_MX)]
  ∧ sockets (send_ssdp_broadcast w s).2 = sockets s + 4
  ∧ res (send_ssdp_broadcast w s).2 =
    received <$> arrivals (udp w (sockets s + 3) a2
                             (ssdp_request SSDP_ST_1 SSDP_MX)).
Proof.
  intros Hips Hig1 Hig2 H1 H2 H3 Hbind Hsend Hans.
  replace (sockets s + 1) with (S (sockets s)) in * by lia.
  replace (sockets s + 2) with (S (S (sockets s))) in * by lia.
  replace (sockets s + 3) with (S (S (S (sockets s)))) in * by lia.
  replace (sockets s + 4) with (S (S (S (S (sockets s))))) by lia.
  rewrite send_ssdp_broadcast_state, Hips.
  rewrite ip_loop_cons, Hig1. unfold SSDP_ST_LIST.
  do 3 (rewrite st_loop_unanswered by done).
  cbn [st_loop ret nonempty res].
  rewrite ip_loop_cons, Hig2. unfold SSDP_ST_LIST.
  rewrite st_loop_cons, broadcast_run.
  cbn [sockets sent res open_sockets]. rewrite Hbind, Hsend. cbn [app].
  destruct (arrivals _) as [|d ds] eqn:Harr; [discriminate |].
  destruct (bool_decide _);
    cbn [fmap list_fmap nonempty sockets sent res sock_close snd];
    rewrite <- !List.app_assoc; done.
Qed.

(** C5.  After a datagram that got at least one answer no other datagram is
    sent, and [res] holds the answers to it.  In particular, when nothing
    answers the three searches on the first address and something answers
    the first search on the second address, exactly four datagrams are
    sent, the last for the first target on the second address, and [res]
    holds its answers: the other two targets and the other addresses are
    not tried. *)
Theorem search_stops_at_first_response `{PyLib} (w : world) (s : state) :
  (∀ k ip data,
     sent (send_ssdp_broadcast w s).2 !! (length (sent s) + k)
       = Some (ip, data) →
     nonempty (arrivals (udp w (sockets s + k) ip data)) = true →
     length (sent (send_ssdp_broadcast w s).2) = length (sent s) + S k
     ∧ (sendto_error (udp w (sockets s + k) ip data) = None →
        res (send_ssdp_broadcast w s).2 =
        received <$> arrivals (udp w (sockets s + k) ip data)))
  ∧ (∀ a1 a2 rest,
       get_local_ips (get_adapters w) = a1 :: a2 :: rest →
       ignored a1 = false →
       ignored a2 = false →
       unanswered_search w (sockets s) a1 SSDP_ST_1 →
       unanswered_search w (sockets s + 1) a1 SSDP_ST_2 →
       unanswered_search w (sockets s + 2) a1 SSDP_ST_3 →
       bind_error w (sockets s + 3) a2 = None →
       sendto_error (udp w (sockets s + 3) a2
                       (ssdp_request SSDP_ST_1 SSDP_MX)) = None →
       nonempty (arrivals (udp w (sockets s + 3) a2
                             (ssdp_request SSDP_ST_1 SSDP_MX))) = true →
       sent (send_ssdp_broadcast w s).2 =
         sent s ++ [(a1, ssdp_request SSDP_ST_1 SSDP_MX);
                    (a1, ssdp_request SSDP_ST_2 SSDP_MX);
                    (a1, ssdp_request SSDP_ST_3 SSDP_MX);
                    (a2, ssdp_request SSDP_ST_1 SSDP_MX)]
       ∧ sockets (send_ssdp_broadcast w s).2 = sockets s + 4
       ∧ res (send_ssdp_broadcast w s).2 =
         received <$> arrivals (udp w (sockets s + 3) a2
                                  (ssdp_request SSDP_ST_1 SSDP_MX))).
Proof.
  split.
  - apply send_ssdp_broadcast_stops.
  - intros a1 a2 rest. apply two_addresses_run.
Qed.

(** Three addresses: the searches on the first get no answer, the first
    search on the second is answered, the third address is not used. *)
Lemma search_stops_at_first_response_witness :
  let s' := (@send_ssdp_broadcast sample_lib three_adapters initial).2 in
  let req := @ssdp_request sample_lib in
  get_local_ips (get_adapters three_adapters) =
    ["10.0.0.2"; "192.168.1.10"; "172.16.0.7"]
  ∧ sent s' =
    [("10.0.0.2", req SSDP_ST_1 SSDP_MX);
     ("10.0.0.2", req SSDP_ST_2 SSDP_MX);
     ("10.0.0.2", req SSDP_ST_3 SSDP_MX);
     ("192.168.1.10", req SSDP_ST_1 SSDP_MX)]
  ∧ sockets s' = 4
  ∧ res s' =
    received <$> arrivals (udp three_adapters 3 "192.168.1.10"
                             (req SSDP_ST_1 SSDP_MX)).
Proof.
  intros s' req. split; [reflexivity |].
  destruct (@search_stops_at_first_response sample_lib three_adapters initial)
    as [_ Hrun].
  apply (Hrun "10.0.0.2" "192.168.1.10" ["172.16.0.7"]);
    repeat split; reflexivity.
Defined.


(** * Further properties *)

(** ** The local addresses *)

Lemma get_local_ips_app (adapters1 adapters2 : list adapter) :
  get_local_ips (adapters1 ++ adapters2) =
  get_local_ips adapters1 ++ get_local_ips adapters2.
Proof. unfold get_local_ips. apply flat_map_app. Qed.

(** X1.  The local addresses are the IPv4 addresses of all the adapters, in
    the order of the adapters: an address is listed when some adapter has
    it as an IPv4 address, an IPv6 address is never listed, and an address
    that two adapters share is listed twice. *)
Theorem get_local_ips_are_the_ipv4_addresses (adapters : list adapter) :
  (∀ ip, ip ∈ get_local_ips adapters ↔
         ∃ a, a ∈ adapters ∧ IPv4 ip ∈ ips a)
  ∧ (∀ adapters', get_local_ips (adapters ++ adapters') =
                  get_local_ips adapters ++ get_local_ips adapters')
  ∧ length (get_local_ips adapters) =
    sum_list ((fun a => length (List.filter
                                  (fun x => match x with
                                            | IPv4 _ => true
                                            | IPv6 _ _ _ => false
                                            end) (ips a))) <$> adapters).
Proof.
  split; [|split; [intros; apply get_local_ips_app |]].
  - intros ip. unfold get_local_ips.
    rewrite list_elem_of_In, in_flat_map. split.
    + intros (a & Ha & Hip). exists a.
      rewrite !list_elem_of_In. split; [done |].
      apply in_flat_map in Hip as ([s|] & Hx & Hs); [|by destruct Hs].
      destruct Hs as [-> | []]. done.
    + intros (a & Ha & Hip). exists a.
      apply list_elem_of_In in Ha. apply list_elem_of_In in Hip.
      split; [done |].
      apply in_flat_map. exists (IPv4 ip). split; [done | by left].
  - induction adapters as [|a adapters IH]; [done |].
    change (a :: adapters) with ([a] ++ adapters) at 1.
    rewrite get_local_ips_app, length_app, IH. cbn [fmap list_fmap sum_list]. f_equal.
    unfold get_local_ips. cbn [flat_map]. rewrite List.app_nil_r.
    induction (ips a) as [|[s|] l IHl]; cbn; [done | by rewrite IHl | done].
Qed.

(** ** The errors of the evaluation *)



(** ** The errors of the entry point *)


(** ** The set of urls *)

Lemma urls_loop_decoded `{PyLib} (entries : list datagram)
    (urls : gset string) :
  urls_loop entries urls =
  match decode_all entries with
  | Some texts => Ok (urls ∪ list_to_set (omap location texts))
  | None => Raise UnicodeDecodeError
  end.
Proof.
  unfold decode_all. revert urls.
  induction entries as [|entry entries IH]; intros urls.
  { cbn. f_equal. by rewrite (right_id_L ∅ (∪)). }
  cbn [urls_loop mapM]. unfold mbind, option_bind.
  destruct (utf8_decode entry.1) as [entry_text|]; [|done].
  destruct (location entry_text) as [url|] eqn:Hloc; rewrite IH;
    destruct (mapM _ entries) as [texts|]; cbn [mret option_ret omap list_omap];
    rewrite ?Hloc; try done.
  cbn [list_to_set]. f_equal. by rewrite (assoc_L (∪)).
Qed.

Lemma decode_all_None `{PyLib} (entries : list datagram) :
  decode_all entries = None ↔
  ∃ entry, entry ∈ entries ∧ utf8_decode entry.1 = None.
Proof. unfold decode_all. by rewrite mapM_None, Exists_exists. Qed.

(** The search returns what the loop over [res] returns. *)
Lemma send_ssdp_broadcast_urls `{PyLib} (w : world) (s s' : state)
    (urls : gset string) :
  send_ssdp_broadcast w s = (Ok urls, s') →
  urls_loop (res s') ∅ = Ok urls.
Proof.
  unfold send_ssdp_broadcast, bind, set_res, get_res, lift.
  destruct (ip_loop _ _ _) as [[[]|e] s1]; [|discriminate].
  by intros [= Hurls <-].
Qed.

(** The urls of the set are the urls of the datagrams of [res]. *)
Lemma send_ssdp_broadcast_elem `{PyLib} (w : world) (s s' : state)
    (urls : gset string) :
  send_ssdp_broadcast w s = (Ok urls, s') →
  ∃ texts, decode_all (res s') = Some texts
           ∧ ∀ url, url ∈ urls ↔
                    ∃ text, text ∈ texts ∧ location text = Some url.
Proof.
  intros Hsearch%send_ssdp_broadcast_urls.
  rewrite urls_loop_decoded in Hsearch.
  destruct (decode_all (res s')) as [texts|]; [|discriminate].
  injection Hsearch as <-. exists texts. split; [done |].
  intros url. rewrite (left_id_L ∅ (∪)), elem_of_list_to_set.
  apply list_elem_of_omap.
Qed.

(** X4.  When every payload decodes, the loop over the responses adds to the
    set the url of every response that has one: responses with the same
    url give one element.  So the set that the search returns holds
    exactly the urls of the datagrams of [res]. *)
Theorem urls_are_the_locations `{PyLib} :
  (∀ entries urls texts,
     decode_all entries = Some texts →
     urls_loop entries urls =
     Ok (urls ∪ list_to_set (omap location texts)))
  ∧ (∀ w s s' urls,
       send_ssdp_broadcast w s = (Ok urls, s') →
       ∃ texts, decode_all (res s') = Some texts
                ∧ ∀ url, url ∈ urls ↔
                         ∃ text, text ∈ texts ∧ location text = Some url).
Proof.
  split.
  - intros entries urls texts Hdecode. by rewrite urls_loop_decoded, Hdecode.
  - intros w s s' urls. apply send_ssdp_broadcast_elem.
Qed.

(** Two responses of one device and one response without LOCATION. *)
Lemma urls_are_the_locations_witness :
  let entries : list datagram :=
    [(ascii_encode (ssdp_response desc_url), ("192.168.1.50", 1900%Z));
     (ascii_encode ("HTTP/1.1 200 OK" +:+ CRLF +:+ CRLF),
      ("192.168.1.7", 1900%Z));
     (ascii_encode (ssdp_response desc_url), ("192.168.1.50", 49152%Z))] in
  @decode_all sample_lib entries =
    Some [ssdp_response desc_url; "HTTP/1.1 200 OK" +:+ CRLF +:+ CRLF;
          ssdp_response desc_url]
  ∧ @urls_loop sample_lib entries ∅ = Ok {[ desc_url ]}.
Proof.
  intros entries. split; [reflexivity |].
  destruct (@urls_are_the_locations sample_lib) as [Hloop _].
  rewrite (Hloop entries ∅ _ eq_refl). reflexivity.
Defined.

(** X5.  The loop over the responses raises exactly when the payload of
    some response does not decode, and then it raises
    [UnicodeDecodeError], whatever the other responses hold. *)
Theorem urls_loop_raises_iff_undecodable `{PyLib}
    (entries : list datagram) (urls : gset string) (e : exn) :
  urls_loop entries urls = Raise e ↔
  e = UnicodeDecodeError
  ∧ ∃ entry, entry ∈ entries ∧ utf8_decode entry.1 = None.
Proof.
  rewrite urls_loop_decoded, <- decode_all_None.
  destruct (decode_all entries); split.
  - discriminate.
  - by intros [_ ?].
  - by intros [= <-].
  - by intros [-> _].
Qed.

(** X6.  The set of urls does not depend on the order of the responses. *)
Theorem urls_loop_order_is_irrelevant `{PyLib}
    (entries entries' : list datagram) (urls : gset string) :
  entries ≡ₚ entries' →
  urls_loop entries urls = urls_loop entries' urls.
Proof.
  intros Hperm. revert urls.
  induction Hperm as [|x l l' _ IH|x y l|l l' l'' _ IH1 _ IH2]; intros urls.
  - done.
  - cbn [urls_loop]. destruct (utf8_decode x.1); [|done].
    by destruct (location _).
  - cbn [urls_loop].
    destruct (utf8_decode x.1) as [tx|], (utf8_decode y.1) as [ty|];
      repeat match goal with
      | |- context [location ?t] => destruct (location t)
      end; try done.
    f_equal. by rewrite <- !(assoc_L (∪)), (comm_L (∪) {[_]}).
  - by rewrite IH1.
Qed.

Lemma urls_loop_order_is_irrelevant_witness :
  let a : datagram :=
    (ascii_encode (ssdp_response desc_url), ("192.168.1.50", 1900%Z)) in
  let b : datagram :=
    (ascii_encode (ssdp_response "http://192.168.1.51:8080/description.xml"),
     ("192.168.1.51", 1900%Z)) in
  [a; b] ≡ₚ [b; a]
  ∧ @urls_loop sample_lib [a; b] ∅ = @urls_loop sample_lib [b; a] ∅.
Proof.
  intros a b. split; [apply perm_swap |].
  apply (@urls_loop_order_is_irrelevant sample_lib). apply perm_swap.
Defined.

Lemma length_omap_le {A B} (f : A → option B) (l : list A) :
  (length (omap f l) ≤ length l)%nat.
Proof.
  induction l as [|x l IH]; [done |].
  cbn [omap list_omap length]. destruct (f x); cbn [length]; lia.
Qed.

Lemma size_union_singleton_le (X : gset string) (x : string) :
  (size (X ∪ {[x]}) ≤ S (size X))%nat.
Proof.
  rewrite size_union_alt.
  assert (size (({[x]} : gset string) ∖ X) ≤ 1)%nat; [|lia].
  rewrite <- (size_singleton (C := gset string) x).
  apply subseteq_size. apply subseteq_difference_l. done.
Qed.

Lemma urls_loop_size `{PyLib} (entries : list datagram) (urls urls' : gset string) :
  urls_loop entries urls = Ok urls' →
  (size urls' ≤ size urls + length entries)%nat.
Proof.
  revert urls. induction entries as [|entry entries IH]; intros urls.
  { cbn. intros [= <-]. lia. }
  cbn [urls_loop length]. destruct (utf8_decode entry.1); [|discriminate].
  destruct (location _) as [url|]; intros Hloop%IH; [|lia].
  pose proof (size_union_singleton_le urls url). lia.
Qed.

(** X7.  The entry point returns at most one dictionary for each url of the
    set, and the set has at most one url for each datagram of [res]: no
    more receivers are returned than datagrams were received. *)
Theorem receivers_are_bounded_by_the_responses `{PyLib}
    (w : world) (s s' : state) (receivers : list pyobj) :
  identify_denonavr_receivers w s = (Ok receivers, s') →
  ∃ urls,
    send_ssdp_broadcast w s = (Ok urls, s')
    ∧ (length receivers ≤ size urls)%nat
    ∧ (size urls ≤ length (res s'))%nat.
Proof.
  unfold identify_denonavr_receivers, bind, lift.
  destruct (send_ssdp_broadcast w s) as [[urls|e] s1] eqn:Hsearch;
    [|discriminate].
  rewrite receivers_loop_validated. cbn [app]. intros [= <- <-].
  exists urls. split; [done |]. split.
  - unfold size, set_size. cbn [set_size]. apply length_omap_le.
  - apply send_ssdp_broadcast_urls, urls_loop_size in Hsearch.
    by rewrite size_empty in Hsearch.
Qed.

Lemma receivers_are_bounded_by_the_responses_witness :
  let run := @identify_denonavr_receivers sample_lib three_adapters initial in
  run.1 = Ok [PyDict living_room_record]
  ∧ length (res run.2) = 3
  ∧ ∃ urls,
      @send_ssdp_broadcast sample_lib three_adapters initial =
        (Ok urls, run.2)
      ∧ (length [PyDict living_room_record] ≤ size urls)%nat
      ∧ (size urls ≤ length (res run.2))%nat.
Proof.
  intros run.
  assert (Hrun : run.1 = Ok [PyDict living_room_record]) by reflexivity.
  split; [exact Hrun |]. split; [reflexivity |].
  apply (@receivers_are_bounded_by_the_responses sample_lib three_adapters
           initial run.2 [PyDict living_room_record]).
  fold run. destruct run as [r s']. cbn in Hrun. by subst r.
Defined.

(** X8.  Every dictionary that the entry point returns is what the
    evaluation gives for a url that is the url of a datagram received in
    this run: the entry point returns no receiver that did not answer the
    search. *)
Theorem receivers_come_from_responses `{PyLib}
    (w : world) (s s' : state) (receivers : list pyobj) (r : pyobj) :
  identify_denonavr_receivers w s = (Ok receivers, s') →
  r ∈ receivers →
  ∃ d entry_text url,
    d ∈ res s'
    ∧ utf8_decode d.1 = Some entry_text
    ∧ location entry_text = Some url
    ∧ evaluate_scpd_xml w url = Ok r.
Proof.
  unfold identify_denonavr_receivers, bind, lift.
  destruct (send_ssdp_broadcast w s) as [[urls|e] s1] eqn:Hsearch;
    [|discriminate].
  rewrite receivers_loop_validated. cbn [app]. intros [= <- <-] Hin.
  apply list_elem_of_omap in Hin as (url & Hurl & Hval).
  apply elem_of_elements in Hurl.
  apply send_ssdp_broadcast_elem in Hsearch as (texts & Hdecode & Hurls).
  apply Hurls in Hurl as (entry_text & Htext & Hloc).
  apply list_elem_of_lookup in Htext as [i Hi].
  unfold decode_all in Hdecode. apply mapM_Some in Hdecode.
  destruct (Forall2_lookup_r _ _ _ _ _ Hdecode Hi) as (d & Hd & Hdec).
  exists d, entry_text, url.
  split; [by eapply list_elem_of_lookup_2 |]. split; [done |].
  split; [done |].
  unfold validated in Hval.
  destruct (evaluate_scpd_xml w url) as [[|dict]|e]; try discriminate.
  by injection Hval as <-.
Qed.

Lemma receivers_come_from_responses_witness :
  let run :=
    @identify_denonavr_receivers sample_lib (home (XmlRoot living_room_avr))
      initial in
  run.1 = Ok [PyDict living_room_record]
  ∧ ∃ d entry_text url,
      d ∈ res run.2
      ∧ ascii_decode d.1 = Some entry_text
      ∧ location entry_text = Some url
      ∧ @evaluate_scpd_xml sample_lib (home (XmlRoot living_room_avr)) url =
        Ok (PyDict living_room_record).
Proof.
  intros run.
  assert (Hrun : run.1 = Ok [PyDict living_room_record]) by reflexivity.
  split; [exact Hrun |].
  apply (@receivers_come_from_responses sample_lib
           (home (XmlRoot living_room_avr)) initial run.2
           [PyDict living_room_record]).
  - fold run. destruct run as [r s']. cbn in Hrun. by subst r.
  - apply list_elem_of_here.
Defined.

(** ** The two loops as one loop over the pairs *)

Lemma scan_cons `{PyLib} (w : world) (ip ssdp_st : string)
    (pairs : list (string * string)) (s : state) :
  scan w ((ip, ssdp_st) :: pairs) s =
  match broadcast w ip ssdp_st s with
  | (Ok sock, s1) =>
      if nonempty (res s1) then sock_close sock s1 else scan w pairs s1
  | (Raise e, s1) => (Raise e, s1)
  end.
Proof.
  cbn [scan]. unfold bind, get_res.
  destruct (broadcast w ip ssdp_st s) as [[sock|e] s1]; [|done].
  by destruct (nonempty (res s1)).
Qed.

(** The loop over the targets of one address, followed by the test of the
    loop over the addresses, is the loop over the pairs of this address. *)
Lemma st_loop_then_scan `{PyLib} (w : world) (ip : string)
    (sts : list string) (pairs : list (string * string)) (s : state) :
  res s = [] →
  match st_loop w ip sts s with
  | (Ok _, s1) => if nonempty (res s1) then (Ok tt, s1) else scan w pairs s1
  | (Raise e, s1) => (Raise e, s1)
  end =
  scan w (((fun ssdp_st => (ip, ssdp_st)) <$> sts) ++ pairs) s.
Proof.
  revert s. induction sts as [|ssdp_st sts IH]; intros s Hres.
  { cbn [st_loop ret fmap list_fmap app]. by rewrite Hres. }
  rewrite st_loop_cons. cbn [fmap list_fmap app]. rewrite scan_cons.
  destruct (broadcast w ip ssdp_st s) as [[sock|e] s1]; [|done].
  destruct (nonempty (res s1)) eqn:Hne.
  - cbn [sock_close res]. by rewrite Hne.
  - apply IH. by apply nonempty_false.
Qed.

Lemma plan_cons (ip : string) (ips : list string) :
  plan (ip :: ips) =
  if ignored ip then plan ips
  else ((fun ssdp_st => (ip, ssdp_st)) <$> SSDP_ST_LIST) ++ plan ips.
Proof. unfold plan. cbn [List.filter]. by destruct (ignored ip). Qed.

(** The loops of [send_ssdp_broadcast] are one loop over the plan. *)
Lemma ip_loop_scan `{PyLib} (w : world) (ips : list string) (s : state) :
  res s = [] → ip_loop w ips s = scan w (plan ips) s.
Proof.
  revert s. induction ips as [|ip ips IH]; intros s Hres; [done |].
  rewrite ip_loop_cons, plan_cons. destruct (ignored ip); [by apply IH |].
  rewrite <- (st_loop_then_scan w ip SSDP_ST_LIST (plan ips) s Hres).
  destruct (st_loop w ip SSDP_ST_LIST s) as [[[]|e] s1]; [|done].
  destruct (nonempty (res s1)) eqn:Hne; [done |].
  apply IH. by apply nonempty_false.
Qed.

Lemma send_ssdp_broadcast_scan `{PyLib} (w : world) (s : state) :
  (send_ssdp_broadcast w s).2 =
  (scan w (plan (get_local_ips (get_adapters w)))
     {| sockets := sockets s; open_sockets := open_sockets s;
        sent := sent s; res := [] |}).2.
Proof. rewrite send_ssdp_broadcast_state. by rewrite ip_loop_scan. Qed.

(** The datagrams that are sent follow the plan. *)
Lemma scan_sent_prefix `{PyLib} (w : world) (pairs : list (string * string))
    (s : state) :
  ∃ k, sent (scan w pairs s).2 = sent s ++ (request_of <$> take k pairs).
Proof.
  revert s. induction pairs as [|[ip ssdp_st] pairs IH]; intros s.
  { exists 0. cbn. by rewrite List.app_nil_r. }
  rewrite scan_cons, broadcast_run.
  destruct (bind_error _ _ _);
    [exists 0; cbn; by rewrite List.app_nil_r |].
  destruct (sendto_error _); [by exists 1 |].
  destruct (bool_decide _); [|by exists 1].
  match goal with |- context [nonempty ?r] => destruct (nonempty r) end;
    [by exists 1 |].
  match goal with |- context [scan w pairs ?s1] =>
    destruct (IH s1) as [k Hk]
  end.
  exists (S k). rewrite Hk. cbn [sent take fmap list_fmap].
  by rewrite <- List.app_assoc.
Qed.

Lemma elem_of_plan (ips : list string) (ip ssdp_st : string) :
  (ip, ssdp_st) ∈ plan ips ↔
  ip ∈ ips ∧ ignored ip = false ∧ ssdp_st ∈ SSDP_ST_LIST.
Proof.
  unfold plan. rewrite list_elem_of_In, in_flat_map. split.
  - intros (ip' & [Hip Hig]%filter_In & Hst%list_elem_of_In).
    apply list_elem_of_fmap in Hst as (st & [= -> ->] & Hst).
    apply list_elem_of_In in Hip. by apply negb_true_iff in Hig.
  - intros (Hip & Hig & Hst). exists ip. split.
    + apply filter_In. split; [by apply list_elem_of_In |].
      by apply negb_true_iff.
    + apply list_elem_of_In, list_elem_of_fmap. by exists ssdp_st.
Qed.

(** X9.  The datagrams that the search sends are a prefix of the plan: the
    requests for the three targets, in their order, from the addresses that
    are not ignored, in their order.  So no datagram is sent from an
    ignored address, and none is sent that is not the request for one of
    the three targets. *)
Theorem sent_datagrams_follow_the_plan `{PyLib} (w : world) (s : state) :
  (∃ k, sent (send_ssdp_broadcast w s).2 =
        sent s ++ (request_of <$>
                   take k (plan (get_local_ips (get_adapters w)))))
  ∧ (∀ ip data,
       (ip, data) ∈ drop (length (sent s)) (sent (send_ssdp_broadcast w s).2) →
       ip ∈ get_local_ips (get_adapters w)
       ∧ ignored ip = false
       ∧ ∃ ssdp_st, ssdp_st ∈ SSDP_ST_LIST
                    ∧ data = ssdp_request ssdp_st SSDP_MX).
Proof.
  rewrite send_ssdp_broadcast_scan.
  destruct (scan_sent_prefix w (plan (get_local_ips (get_adapters w)))
              {| sockets := sockets s; open_sockets := open_sockets s;
                 sent := sent s; res := [] |}) as [k Hk].
  cbn [sent] in Hk. split; [by exists k |].
  intros ip data. rewrite Hk, drop_app_length.
  intros ([ip' st] & [= -> ->] & Hin)%list_elem_of_fmap.
  apply elem_of_take in Hin as (i & Hin & _).
  apply list_elem_of_lookup_2, elem_of_plan in Hin as (Hip & Hig & Hst).
  cbn [fst snd]. eauto.
Qed.

Lemma sent_datagrams_follow_the_plan_witness :
  let w := home (XmlRoot living_room_avr) in
  let run := @send_ssdp_broadcast sample_lib w initial in
  (∃ k, sent run.2 =
        sent initial ++ (@request_of sample_lib <$>
                         take k (plan (get_local_ips (get_adapters w)))))
  ∧ ("192.168.1.10" ∈ get_local_ips (get_adapters w)
     ∧ ignored "192.168.1.10" = false
     ∧ ∃ ssdp_st, ssdp_st ∈ SSDP_ST_LIST
                  ∧ @ssdp_request sample_lib SSDP_ST_2 SSDP_MX =
                    @ssdp_request sample_lib ssdp_st SSDP_MX).
Proof.
  intros w run.
  destruct (@sent_datagrams_follow_the_plan sample_lib w initial)
    as [Hprefix Hsent].
  split; [exact Hprefix |].
  apply (Hsent "192.168.1.10" (@ssdp_request sample_lib SSDP_ST_2 SSDP_MX)).
  assert (Hrun : sent (@send_ssdp_broadcast sample_lib w initial).2 =
                 [("192.168.1.10", @ssdp_request sample_lib SSDP_ST_1 SSDP_MX);
                  ("192.168.1.10", @ssdp_request sample_lib SSDP_ST_2 SSDP_MX)])
    by reflexivity.
  rewrite Hrun. cbn [initial sent length drop].
  apply list_elem_of_further, list_elem_of_here.
Defined.

(** ** A search without answers *)

Lemma scan_unanswered `{PyLib} (w : world) (pairs : list (string * string))
    (s : state) :
  res s = [] →
  (∀ k ip ssdp_st,
     pairs !! k = Some (ip, ssdp_st) →
     unanswered_search w (sockets s + k) ip ssdp_st) →
  (scan w pairs s).1 = Ok tt
  ∧ sent (scan w pairs s).2 = sent s ++ (request_of <$> pairs)
  ∧ sockets (scan w pairs s).2 = sockets s + length pairs
  ∧ res (scan w pairs s).2 = [].
Proof.
  revert s. induction pairs as [|[ip ssdp_st] pairs IH]; intros s Hres Hall.
  { cbn. by rewrite List.app_nil_r, Nat.add_0_r. }
  destruct (Hall 0 ip ssdp_st eq_refl) as (Hbind & Hsend & Harr & Hend).
  rewrite Nat.add_0_r in Hbind, Hsend, Harr, Hend.
  rewrite scan_cons, broadcast_run, Hbind, Hsend, Hend, Harr, Hres.
  rewrite bool_decide_eq_true_2 by done. cbn [app fmap list_fmap nonempty res].
  match goal with |- context [scan w pairs ?s1] =>
    destruct (IH s1) as (Hok & Hsent & Hsock & Hres1)
  end; [done | |].
  { intros k ip' st' Hk. cbn [sockets].
    replace (S (sockets s) + k) with (sockets s + S k) by lia. by apply Hall. }
  cbn [sent sockets] in Hsent, Hsock.
  rewrite Hok, Hsent, Hsock, Hres1. cbn [length fmap list_fmap].
  split; [done |]. split; [by rewrite <- List.app_assoc |]. split; [lia | done].
Qed.

(** X10.  When every search of the plan goes out and gets no answer, the
    search tries every pair of the plan, one socket each, in the order of
    the plan, and returns the empty set; the entry point returns the empty
    list. *)
Theorem search_without_answers_tries_every_pair `{PyLib}
    (w : world) (s : state) :
  (∀ k ip ssdp_st,
     plan (get_local_ips (get_adapters w)) !! k = Some (ip, ssdp_st) →
     unanswered_search w (sockets s + k) ip ssdp_st) →
  (send_ssdp_broadcast w s).1 = Ok ∅
  ∧ (identify_denonavr_receivers w s).1 = Ok []
  ∧ sent (send_ssdp_broadcast w s).2 =
    sent s ++ (request_of <$> plan (get_local_ips (get_adapters w)))
  ∧ sockets (send_ssdp_broadcast w s).2 =
    sockets s + length (plan (get_local_ips (get_adapters w))).
Proof.
  intros Hall.
  pose (s0 := {| sockets := sockets s; open_sockets := open_sockets s;
                 sent := sent s; res := [] |}).
  destruct (scan_unanswered w (plan (get_local_ips (get_adapters w))) s0
              eq_refl Hall) as (Hok & Hsent & Hsock & Hres).
  assert (Hsearch : (send_ssdp_broadcast w s).1 = Ok ∅).
  { unfold send_ssdp_broadcast, bind, set_res, get_res, lift.
    fold s0. rewrite ip_loop_scan by done.
    destruct (scan w _ s0) as [[[]|e] s1]; [|discriminate].
    cbn [snd] in Hres. by rewrite Hres. }
  split; [done |]. split.
  - unfold identify_denonavr_receivers, bind, lift.
    destruct (send_ssdp_broadcast w s) as [[urls|e] s1]; [|discriminate].
    injection Hsearch as ->. by rewrite elements_empty.
  - rewrite send_ssdp_broadcast_scan. fold s0. by rewrite Hsent, Hsock.
Qed.

(** A host with two usable addresses and a link-local one, on a network
    where nothing answers. *)
Lemma search_without_answers_tries_every_pair_witness :
  let w :=
    {| get_adapters :=
         [ {| ips := [IPv4 "192.168.1.10"; IPv4 "169.254.3.4"] |};
           {| ips := [IPv4 "10.0.0.2"] |} ];
       bind_error := fun _ _ => None;
       udp := fun _ _ _ => silence;
       requests_get := fun _ => GetRequestError |} in
  plan (get_local_ips (get_adapters w)) =
    [("192.168.1.10", SSDP_ST_1); ("192.168.1.10", SSDP_ST_2);
     ("192.168.1.10", SSDP_ST_3);
     ("10.0.0.2", SSDP_ST_1); ("10.0.0.2", SSDP_ST_2);
     ("10.0.0.2", SSDP_ST_3)]
  ∧ (@send_ssdp_broadcast sample_lib w initial).1 = Ok ∅
  ∧ (@identify_denonavr_receivers sample_lib w initial).1 = Ok []
  ∧ sent (@send_ssdp_broadcast sample_lib w initial).2 =
    sent initial ++
    (@request_of sample_lib <$> plan (get_local_ips (get_adapters w)))
  ∧ sockets (@send_ssdp_broadcast sample_lib w initial).2 =
    sockets initial + length (plan (get_local_ips (get_adapters w))).
Proof.
  intros w. split; [reflexivity |].
  apply (@search_without_answers_tries_every_pair sample_lib w initial).
  intros k ip ssdp_st _. repeat split.
Defined.

(** ** The sockets after the search *)

Lemma scan_no_leak `{PyLib} (w : world) (pairs : list (string * string))
    (s : state) :
  fresh s →
  (scan w pairs s).1 = Ok tt →
  open_sockets (scan w pairs s).2 = open_sockets s
  ∧ fresh (scan w pairs s).2.
Proof.
  revert s. induction pairs as [|[ip ssdp_st] pairs IH]; intros s Hfresh.
  { done. }
  rewrite scan_cons, broadcast_run.
  destruct (bind_error _ _ _); [discriminate |].
  destruct (sendto_error _); [discriminate |].
  destruct (bool_decide _); [|discriminate].
  assert (Hnew : sockets s ∉ open_sockets s).
  { intros Hin%Hfresh. lia. }
  assert (Hopen : ({[sockets s]} ∪ open_sockets s) ∖ {[sockets s]}
                  = open_sockets s).
  { apply set_eq. intros n.
    rewrite elem_of_difference, elem_of_union, !elem_of_singleton.
    split; [tauto |]. intros Hn. split; [tauto |]. by intros ->. }
  rewrite Hopen.
  match goal with |- context [nonempty ?r] => destruct (nonempty r) end.
  - intros _. cbn [sock_close snd open_sockets].
    assert (Hclose : open_sockets s ∖ {[sockets s]} = open_sockets s).
    { apply set_eq. intros n.
      rewrite elem_of_difference, elem_of_singleton.
      split; [tauto |]. intros Hn. split; [done |]. by intros ->. }
    rewrite Hclose. split; [done |].
    intros n Hn. cbn [open_sockets sockets] in *. apply Hfresh in Hn. lia.
  - intros Hok.
    match goal with |- context [scan w pairs ?s1] =>
      destruct (IH s1) as [Hopen1 Hfresh1]
    end; [|done|done].
    intros n Hn. cbn [open_sockets sockets] in *. apply Hfresh in Hn. lia.
Qed.

(** X11.  A search that returns leaves no socket open: the open sockets
    after it are those that were open before it. *)
Theorem search_that_returns_closes_its_sockets `{PyLib}
    (w : world) (s : state) (urls : gset string) :
  fresh s →
  (send_ssdp_broadcast w s).1 = Ok urls →
  open_sockets (send_ssdp_broadcast w s).2 = open_sockets s
  ∧ fresh (send_ssdp_broadcast w s).2.
Proof.
  intros Hfresh Hok.
  pose (s0 := {| sockets := sockets s; open_sockets := open_sockets s;
                 sent := sent s; res := [] |}).
  rewrite send_ssdp_broadcast_scan. fold s0.
  apply (scan_no_leak w _ s0); [done |].
  revert Hok. unfold send_ssdp_broadcast, bind, set_res, get_res, lift.
  fold s0. rewrite ip_loop_scan by done.
  by destruct (scan w _ s0) as [[[]|e] s1].
Qed.

Lemma search_that_returns_closes_its_sockets_witness :
  fresh initial
  ∧ (@send_ssdp_broadcast sample_lib three_adapters initial).1 = Ok three_urls
  ∧ sockets (@send_ssdp_broadcast sample_lib three_adapters initial).2 = 4
  ∧ open_sockets (@send_ssdp_broadcast sample_lib three_adapters initial).2 =
    open_sockets initial
  ∧ fresh (@send_ssdp_broadcast sample_lib three_adapters initial).2.
Proof.
  assert (Hfresh : fresh initial).
  { intros sock Hin. by apply elem_of_empty in Hin. }
  split; [exact Hfresh |]. split; [reflexivity |]. split; [reflexivity |].
  apply (@search_that_returns_closes_its_sockets sample_lib three_adapters
           initial three_urls Hfresh).
  reflexivity.
Defined.

(** ** The datagrams that are kept *)

Lemma scan_res_Forall `{PyLib} (P : datagram → Prop) (w : world)
    (pairs : list (string * string)) (s : state) :
  (∀ sock ip data d, d ∈ arrivals (udp w sock ip data) → P (received d)) →
  Forall P (res s) →
  Forall P (res (scan w pairs s).2).
Proof.
  intros HP. revert s.
  induction pairs as [|[ip ssdp_st] pairs IH]; intros s Hres; [done |].
  rewrite scan_cons, broadcast_run.
  destruct (bind_error _ _ _); [done |].
  destruct (sendto_error _); [done |].
  assert (Hres1 : Forall P (res s ++ (received <$> arrivals
            (udp w (sockets s) ip (ssdp_request ssdp_st SSDP_MX))))).
  { apply Forall_app. split; [done |]. apply Forall_fmap, Forall_forall.
    intros d Hd. by eapply HP. }
  destruct (bool_decide _); [|done].
  match goal with |- context [nonempty ?r] => destruct (nonempty r) end;
    [done |].
  by apply IH.
Qed.

(** X12.  Every datagram that the search keeps in [res] has a payload of at
    most 10240 bytes: what a device sends beyond is not looked at. *)
Theorem kept_payloads_are_bounded `{PyLib} (w : world) (s : state)
    (d : datagram) :
  d ∈ res (send_ssdp_broadcast w s).2 →
  (Z.of_nat (length d.1) ≤ 10240)%Z.
Proof.
  rewrite send_ssdp_broadcast_scan.
  pose proof (scan_res_Forall
                (fun d => (Z.of_nat (length d.1) ≤ 10240)%Z) w
                (plan (get_local_ips (get_adapters w)))
                {| sockets := sockets s; open_sockets := open_sockets s;
                   sent := sent s; res := [] |}) as Hall.
  intros Hd. refine (proj1 (Forall_forall _ _) (Hall _ _) d Hd).
  - intros sock ip data d' _. unfold received. cbn [fst].
    rewrite length_take.
    assert (Z.of_nat RECV_BUFSIZE = 10240%Z) by (unfold RECV_BUFSIZE; lia).
    lia.
  - constructor.
Qed.

Lemma kept_payloads_are_bounded_witness :
  let d : datagram :=
    (take RECV_BUFSIZE (ascii_encode (ssdp_response desc_url)),
     ("192.168.1.50", 1900%Z)) in
  d ∈ res (@send_ssdp_broadcast sample_lib three_adapters initial).2
  ∧ (Z.of_nat (length d.1) ≤ 10240)%Z.
Proof.
  intros d.
  assert (Hd : d ∈ res (@send_ssdp_broadcast sample_lib three_adapters
                          initial).2).
  { apply list_elem_of_here. }
  split; [exact Hd |].
  exact (@kept_payloads_are_bounded sample_lib three_adapters initial d Hd).
Defined.

(** ** A search that only times out *)



(** ** The url of a response *)

Lemma string_of_list_ascii_app (a b : list ascii) :
  string_of_list_ascii (a ++ b) =
  string_of_list_ascii a +:+ string_of_list_ascii b.
Proof.
  induction a as [|c a IH]; [reflexivity |].
  change (String c (string_of_list_ascii (a ++ b)) =
          String c (string_of_list_ascii a +:+ string_of_list_ascii b)).
  by rewrite IH.
Qed.

Lemma search_from_Some_inv (p : Re.pattern) (before text m : list ascii) :
  Re.search_from p before text = Some m →
  ∃ skipped after,
    text = skipped ++ after
    ∧ Re.match_here p (rev skipped ++ before) after = Some m.
Proof.
  revert before. induction text as [|c text IH]; intros before.
  - cbn [Re.search_from]. destruct (Re.match_here p before []) eqn:Hm;
      [|discriminate].
    intros [= <-]. by exists [], [].
  - cbn [Re.search_from]. destruct (Re.match_here p before (c :: text)) eqn:Hm.
    + intros [= <-]. by exists [], (c :: text).
    + intros (skipped & after & -> & Hafter)%IH.
      exists (c :: skipped), after. cbn [app rev].
      by rewrite <- List.app_assoc.
Qed.

(** What the lazy plus takes before a carriage return. *)
Lemma lazy_more_until_cr (before after m : list ascii) :
  lazy_more Re.Dot [Re.LookAhead [Re.Chr "013"]] before after = Some m →
  ∃ post, after = m ++ "013"%char :: post
          ∧ Forall (fun c => c ≠ "010"%char ∧ c ≠ "013"%char) m.
Proof.
  revert before m. induction after as [|c after IH]; intros before m.
  { discriminate. }
  cbn [lazy_more Re.match_here Re.atoms_prefix Re.atom_matches].
  destruct (Ascii.eqb "013" c) eqn:Hcr.
  - apply Ascii.eqb_eq in Hcr as <-. cbn [andb]. intros [= <-].
    by exists after.
  - cbn [andb]. apply Ascii.eqb_neq in Hcr.
    destruct (negb (Ascii.eqb c "010")) eqn:Hlf; [|discriminate].
    apply negb_true_iff, Ascii.eqb_neq in Hlf.
    destruct (lazy_more _ _ _ after) as [m'|] eqn:Hm; [|discriminate].
    intros [= <-]. apply IH in Hm as (post & -> & Hall).
    exists post. split; [done |]. constructor; [|done]. split; congruence.
Qed.

Lemma lazy_more_until_cr_some (before u post : list ascii) :
  Forall (fun c => c ≠ "010"%char) u →
  is_Some (lazy_more Re.Dot [Re.LookAhead [Re.Chr "013"]] before
             (u ++ "013"%char :: post)).
Proof.
  intros Hu. revert before. induction Hu as [|c u Hc Hu IH]; intros before.
  { cbn. by eexists. }
  cbn [app lazy_more Re.match_here Re.atoms_prefix Re.atom_matches].
  destruct (Ascii.eqb "013" c); cbn [andb]; [by eexists |].
  apply Ascii.eqb_neq, negb_true_iff in Hc. rewrite Hc.
  by apply fmap_is_Some.
Qed.

Lemma behind_iff (before : list ascii) :
  Re.atoms_prefix LOCATION_BEHIND before = true ↔
  ∃ c r, before = c :: rev (list_ascii_of_string "LOCATION:") ++ r
         ∧ Re.is_space c = true.
Proof.
  rewrite LOCATION_BEHIND_atoms. split.
  - destruct before as [|c before]; [discriminate |].
    cbn [Re.atoms_prefix Re.atom_matches]. intros [Hc Hl]%andb_true_iff.
    apply literal_prefix in Hl as [r ->]. by exists c, r.
  - intros (c & r & -> & Hc).
    cbn [Re.atoms_prefix Re.atom_matches]. rewrite Hc. reflexivity.
Qed.

(** A match of the pattern, in the text. *)
Lemma search_location_inv (text m : list ascii) :
  Re.search_from LOCATION_RE [] text = Some m →
  ∃ pre c post,
    text = pre ++ list_ascii_of_string "LOCATION:" ++ c :: m
               ++ "013"%char :: post
    ∧ Re.is_space c = true
    ∧ m ≠ []
    ∧ Forall (fun x => x ≠ "010"%char) m
    ∧ Forall (fun x => x ≠ "013"%char) (tail m).
Proof.
  intros (skipped & after & -> & Hm)%search_from_Some_inv.
  rewrite List.app_nil_r, match_here_location in Hm.
  destruct (Re.atoms_prefix LOCATION_BEHIND (rev skipped)) eqn:Hbehind;
    [|discriminate].
  apply behind_iff in Hbehind as (c & r & Hskipped & Hc).
  apply (f_equal (@rev ascii)) in Hskipped.
  rewrite rev_involutive in Hskipped. cbn [rev] in Hskipped.
  rewrite rev_app_distr, rev_involutive in Hskipped.
  rewrite match_here_lazy in Hm.
  destruct after as [|c1 after]; [discriminate |].
  cbn [Re.atom_matches] in Hm.
  destruct (negb (Ascii.eqb c1 "010")) eqn:Hlf; [|discriminate].
  apply negb_true_iff, Ascii.eqb_neq in Hlf.
  destruct (lazy_more _ _ _ after) as [m'|] eqn:Hm'; [|discriminate].
  injection Hm as <-. apply lazy_more_until_cr in Hm' as (post & -> & Hall).
  exists (rev r), c, post. rewrite Hskipped.
  split; [by rewrite <- !List.app_assoc |].
  split; [done |]. split; [done |]. split.
  - constructor; [done |]. eapply Forall_impl; [exact Hall |]. by intros ? [? ?].
  - cbn [tail]. eapply Forall_impl; [exact Hall |]. by intros ? [? ?].
Qed.

(** X14.  The url of a response is text of the response that follows
    ["LOCATION:"] and one whitespace character, and that a carriage return
    follows: it is not empty, it holds no line feed, and it holds no
    carriage return after its first character. *)
Theorem location_is_the_value_of_a_header (entry_text url : string) :
  location entry_text = Some url →
  ∃ pre c post,
    entry_text = pre +:+ "LOCATION:" +:+ String c url +:+ CR +:+ post
    ∧ Re.is_space c = true
    ∧ url ≠ EmptyString
    ∧ Forall (fun x => x ≠ "010"%char) (list_ascii_of_string url)
    ∧ Forall (fun x => x ≠ "013"%char) (tail (list_ascii_of_string url)).
Proof.
  unfold location, Re.search.
  destruct (Re.search_from _ _ _) as [m|] eqn:Hm; [|discriminate].
  intros [= <-].
  apply search_location_inv in Hm as (pre & c & post & Htext & Hc & Hne & Hlf & Hcr).
  exists (string_of_list_ascii pre), c, (string_of_list_ascii post).
  rewrite list_ascii_of_string_of_list_ascii.
  split; [|split; [done |split; [|done]]].
  - rewrite <- (string_of_list_ascii_of_string entry_text), Htext.
    rewrite !string_of_list_ascii_app, string_of_list_ascii_of_string.
    change (string_of_list_ascii (c :: m ++ "013"%char :: post))
      with (String c (string_of_list_ascii (m ++ "013"%char :: post))).
    rewrite string_of_list_ascii_app. reflexivity.
  - by destruct m.
Qed.

Lemma location_is_the_value_of_a_header_witness :
  location (ssdp_response desc_url) = Some desc_url
  ∧ ∃ pre c post,
      ssdp_response desc_url =
        pre +:+ "LOCATION:" +:+ String c desc_url +:+ CR +:+ post
      ∧ Re.is_space c = true
      ∧ desc_url ≠ EmptyString
      ∧ Forall (fun x => x ≠ "010"%char) (list_ascii_of_string desc_url)
      ∧ Forall (fun x => x ≠ "013"%char)
          (tail (list_ascii_of_string desc_url)).
Proof.
  assert (Hloc : location (ssdp_response desc_url) = Some desc_url)
    by reflexivity.
  split; [exact Hloc |].
  exact (location_is_the_value_of_a_header _ _ Hloc).
Defined.

(** X15.  A response has a url exactly when its text holds ["LOCATION:"],
    one whitespace character, at least one character, and later a carriage
    return with no line feed in between. *)
Theorem location_exists_iff (entry_text : string) :
  is_Some (location entry_text) ↔
  ∃ pre c u post,
    entry_text = pre +:+ "LOCATION:" +:+ String c u +:+ CR +:+ post
    ∧ Re.is_space c = true
    ∧ u ≠ EmptyString
    ∧ Forall (fun x => x ≠ "010"%char) (list_ascii_of_string u).
Proof.
  split.
  - intros [url Hurl]. unfold location, Re.search in Hurl.
    destruct (Re.search_from _ _ _) as [m|] eqn:Hm; [|discriminate].
    apply search_location_inv in Hm
      as (pre & c & post & Htext & Hc & Hne & Hlf & _).
    exists (string_of_list_ascii pre), c, (string_of_list_ascii m),
      (string_of_list_ascii post).
    rewrite list_ascii_of_string_of_list_ascii.
    split; [|split; [done |split; [|done]]].
    + rewrite <- (string_of_list_ascii_of_string entry_text), Htext.
      rewrite !string_of_list_ascii_app, string_of_list_ascii_of_string.
      change (string_of_list_ascii (c :: m ++ "013"%char :: post))
        with (String c (string_of_list_ascii (m ++ "013"%char :: post))).
      rewrite string_of_list_ascii_app. reflexivity.
    + by destruct m.
  - intros (pre & c & u & post & -> & Hc & Hne & Hlf).
    unfold location, Re.search. apply fmap_is_Some.
    rewrite !list_ascii_of_string_app.
    change (list_ascii_of_string (String c u))
      with (c :: list_ascii_of_string u).
    change (list_ascii_of_string CR) with ["013"%char].
    replace (list_ascii_of_string pre ++
             list_ascii_of_string "LOCATION:" ++
             (c :: list_ascii_of_string u) ++
             ["013"%char] ++ list_ascii_of_string post)
      with ((list_ascii_of_string pre ++
             list_ascii_of_string "LOCATION:" ++ [c]) ++
            (list_ascii_of_string u ++
             "013"%char :: list_ascii_of_string post))
      by (by rewrite <- !List.app_assoc).
    apply search_from_some. rewrite match_here_location.
    replace (Re.atoms_prefix LOCATION_BEHIND _) with true.
    2:{ symmetry. apply behind_iff.
        exists c, (rev (list_ascii_of_string pre)). split; [|done].
        rewrite List.app_nil_r, !rev_app_distr. reflexivity. }
    rewrite match_here_lazy.
    destruct (list_ascii_of_string u) as [|c1 u'] eqn:Hu.
    { destruct u; [done | discriminate]. }
    apply Forall_cons in Hlf as [Hc1 Hlf]. cbn [app Re.atom_matches].
    apply Ascii.eqb_neq, negb_true_iff in Hc1. rewrite Hc1.
    apply fmap_is_Some. by apply lazy_more_until_cr_some.
Qed.

(** The header name in other letters, a value right after the colon and a
    line that ends with a bare line feed give no url. *)
Example location_of_other_headers :
  location ("Location: http://a" +:+ CRLF) = None
  ∧ location ("LOCATION:http://a" +:+ CRLF) = None
  ∧ location ("LOCATION: http://a" +:+ LF) = None
  ∧ location ("LOCATION: http://a" +:+ CRLF) = Some "http://a".
Proof. repeat split; reflexivity. Qed.

(** ** The number of sockets *)

Lemma scan_sockets `{PyLib} (w : world) (pairs : list (string * string))
    (s : state) :
  (sockets s ≤ sockets (scan w pairs s).2 ≤ sockets s + length pairs)%nat.
Proof.
  revert s. induction pairs as [|[ip ssdp_st] pairs IH]; intros s.
  { cbn. lia. }
  rewrite scan_cons, broadcast_run. cbn [length].
  destruct (bind_error _ _ _); [cbn; lia |].
  destruct (sendto_error _); [cbn; lia |].
  destruct (bool_decide _); [|cbn; lia].
  match goal with |- context [nonempty ?r] => destruct (nonempty r) end;
    [cbn; lia |].
  match goal with |- context [scan w pairs ?s1] => specialize (IH s1) end.
  cbn [sockets] in IH. lia.
Qed.

Lemma length_plan (ips : list string) :
  length (plan ips) =
  3 * length (List.filter (fun ip => negb (ignored ip)) ips).
Proof.
  unfold plan. induction (List.filter _ ips) as [|ip l IH]; [done |].
  cbn [flat_map]. rewrite length_app, IH. cbn [length fmap list_fmap].
  unfold SSDP_ST_LIST. cbn [length fmap list_fmap]. lia.
Qed.

(** X16.  The search creates at most three sockets for each local address
    that is not ignored, whatever the network does. *)
Theorem search_creates_at_most_three_sockets_per_address `{PyLib}
    (w : world) (s : state) :
  (sockets s ≤ sockets (send_ssdp_broadcast w s).2
   ≤ sockets s
     + 3 * length (List.filter (fun ip => negb (ignored ip))
                     (get_local_ips (get_adapters w))))%nat.
Proof.
  rewrite send_ssdp_broadcast_scan, <- length_plan.
  apply (scan_sockets w _
           {| sockets := sockets s; open_sockets := open_sockets s;
              sent := sent s; res := [] |}).
Qed.

(** ** The addresses that the search skips *)

(** X17.  The search skips an address exactly when the address holds
    ["169"], one character that is no line feed and ["254"], one after the
    other, anywhere in it. *)
Theorem skipped_addresses_hold_169_254 (ip : string) :
  ignored ip = true ↔
  ∃ pre c post,
    c ≠ "010"%char ∧ ip = pre +:+ "169" +:+ String c "254" +:+ post.
Proof.
  split.
  - intros (a & c & b & Hc & Hip)%ignored_iff.
    exists (string_of_list_ascii a), c, (string_of_list_ascii b).
    split; [done |].
    apply (f_equal string_of_list_ascii) in Hip.
    rewrite string_of_list_ascii_of_string in Hip. rewrite Hip.
    rewrite string_of_list_ascii_app. reflexivity.
  - intros (pre & c & post & Hc & ->). apply ignored_iff.
    exists (list_ascii_of_string pre), c, (list_ascii_of_string post).
    split; [done |]. rewrite !list_ascii_of_string_app. reflexivity.
Qed.
